(** * Ranker: the Redis leaderboard service and the score log

    A shallow embedding of [ranker/scores/services.py] (class
    [LeaderboardService]), of the parts of [ranker/scores/models.py] and
    [ranker/games/models.py] it relies on, and of
    [ScoreSubmissionView.post] in [ranker/scores/api/views.py].

    Conventions of the embedding.

    - A score is a [DecimalField(max_digits=12, decimal_places=2)]; the
      service receives it as [float(score)].  Every such decimal is an
      integer number of hundredths below [10^12 < 2^53], so the doubles in
      play are in one-to-one, order-preserving correspondence with these
      integers, and the service only negates, compares and takes [max] /
      [min] of them, all of which are exact.  A score is therefore carried
      as the integer number of hundredths ([12.50] is [1250]).
    - Python [int] is [Z]; a Django table with a primary key is a [gmap]
      from the key to the row; the score table, whose default ordering is
      [-submitted_at], is a list with the newest row first.
    - Redis is a finite map from key names to sorted sets; a sorted set is
      a finite map from members to scores, read back in Redis order. *)

From Stdlib Require Import ZArith String Ascii List Lia SpecFloat.
From stdpp Require Import gmap strings pretty list fin_maps sorting.

Open Scope Z_scope.

(** ** Python helpers *)

Module Py.
(** [str(n)] for an [int]: decimal digits, with a leading minus sign for a
    negative number. *)
Definition str (n : Z) : string := pretty n.

(** [x or y] on strings: the empty string is falsy. *)
Definition or_str (x y : string) : string :=
  match x with
  | EmptyString => y
  | _ => x
  end.
End Py.

(** ** Django models *)

(** [ranker.games.models.Game]; the primary key is the key of the table. *)
Module Game.
Record t := mk {
  name : string;
  is_active : bool;
  score_type : string   (* "highest", "lowest" or "time" *)
}.
End Game.

(** The user model, as far as the leaderboard rows read it. *)
Module User.
Record t := mk {
  email : string;
  name : string
}.
End User.

(** [ranker.scores.models.Score]: [user] and [game] are the foreign keys,
    [score] the decimal in hundredths. *)
Module Score.
Record t := mk {
  user : Z;
  game : Z;
  score : Z
}.
End Score.

(** The relational database: the three tables the service reads. *)
Record Database := mkDatabase {
  Game_objects : gmap Z Game.t;
  User_objects : gmap Z User.t;
  Score_objects : list Score.t   (* ordering = ["-submitted_at"]: newest first *)
}.

(** ** The Redis commands the service issues

    A sorted set maps each member to one score.  The members written by
    this code are [str(user_id)]; a member is carried as the user id and
    compared through its decimal string, which is how Redis breaks ties
    between equal scores (byte-wise on the member). *)

Module Redis.
Abbreviation zset := (gmap Z Z).
Abbreviation t := (gmap string (gmap Z Z)).

Definition zset_at (key : string) (r : t) : zset := default ∅ (r !! key).

(** Redis order of two (member, score) entries: by score, then by member
    bytes. *)
Definition entry_leb (a b : Z * Z) : bool :=
  (a.2 <? b.2) || ((a.2 =? b.2) && String.leb (Py.str a.1) (Py.str b.1)).

Definition entry_le (a b : Z * Z) : Prop := entry_leb a b = true.

#[global] Instance entry_le_dec : RelDecision entry_le :=
  λ a b, decide (entry_leb a b = true).

(** All entries of a sorted set, lowest score first. *)
Definition ascending (z : zset) : list (Z * Z) :=
  merge_sort entry_le (map_to_list z).

(** All entries, highest score first: the order of the ZREV* commands. *)
Definition descending (z : zset) : list (Z * Z) := reverse (ascending z).

(** ZADD key member score: sets the member's score, creating the key. *)
Definition zadd (key : string) (member score : Z) (r : t) : t :=
  <[key := <[member := score]> (zset_at key r)]> r.

(** DEL key. *)
Definition delete (key : string) (r : t) : t := base.delete key r.

(** ZSCORE key member. *)
Definition zscore (key : string) (member : Z) (r : t) : option Z :=
  zset_at key r !! member.

(** ZCARD key. *)
Definition zcard (key : string) (r : t) : Z := Z.of_nat (size (zset_at key r)).

(** ZRANGE and ZREVRANGE parse their two indexes as signed 64-bit integers
    and refuse the command for any other value (the client then raises
    [ResponseError]); the range commands below give the answer for indexes
    in that range. *)
Definition int64 (i : Z) : Prop := - 2 ^ 63 ≤ i < 2 ^ 63.

(** The index range of ZRANGE / ZREVRANGE over a sequence of [llen]
    entries already in reading order: negative indices count from the
    end, the range is inclusive, and it is empty when, after this, the
    start is past the stop or past the last entry. *)
Definition range_by_rank {A} (l : list A) (start stop : Z) : list A :=
  let llen := Z.of_nat (length l) in
  let start := if start <? 0 then llen + start else start in
  let stop := if stop <? 0 then llen + stop else stop in
  let start := if start <? 0 then 0 else start in
  if (stop <? start) || (llen <=? start) then []
  else
    let stop := if llen <=? stop then llen - 1 else stop in
    take (Z.to_nat (stop - start + 1)) (drop (Z.to_nat start) l).

(** ZREVRANGE key start stop WITHSCORES. *)
Definition zrevrange (key : string) (start stop : Z) (r : t) : list (Z * Z) :=
  range_by_rank (descending (zset_at key r)) start stop.

(** The 0-based position of the first entry of a member. *)
Fixpoint position (member : Z) (l : list (Z * Z)) : option Z :=
  match l with
  | [] => None
  | e :: l' =>
      if decide (e.1 = member) then Some 0
      else (λ i, i + 1) <$> position member l'
  end.

(** ZREVRANK key member. *)
Definition zrevrank (key : string) (member : Z) (r : t) : option Z :=
  position member (descending (zset_at key r)).
End Redis.

(** ** LeaderboardService *)

(** One row of a game leaderboard page. *)
Record LeaderboardEntry := mkLeaderboardEntry {
  rank : Z;
  user_id : Z;
  username : string;
  name : string;
  score : Z
}.

(** One row of the global leaderboard page. *)
Record GlobalLeaderboardEntry := mkGlobalLeaderboardEntry {
  g_rank : Z;
  g_user_id : Z;
  g_username : string;
  g_name : string;
  total_score : Z
}.

(** The dictionary returned by [get_user_rank]. *)
Record UserRank := mkUserRank {
  user_rank : Z;
  user_score : Z;
  surrounding_players : list LeaderboardEntry;
  total_players : Z
}.

(** The dictionary returned by [get_user_global_rank]. *)
Record UserGlobalRank := mkUserGlobalRank {
  gr_user_rank : Z;
  gr_total_score : Z;
  gr_total_players : Z
}.

Module LeaderboardService.

Definition get_leaderboard_key (game_id : Z) : string :=
  "leaderboard:" +:+ Py.str game_id.

Definition get_global_leaderboard_key : string := "leaderboard:global".

Definition _convert_score_for_redis (score : Z) (game_score_type : string) : Z :=
  if String.eqb game_score_type "highest" then - score else score.

Definition _convert_score_from_redis (redis_score : Z) (game_score_type : string) : Z :=
  if String.eqb game_score_type "highest" then - redis_score else redis_score.

Definition update_user_score (game_id user_id score : Z)
    (game_score_type : string) (r : Redis.t) : Redis.t :=
  let game_key := get_leaderboard_key game_id in
  let global_key := get_global_leaderboard_key in
  let redis_score := _convert_score_for_redis score game_score_type in
  let r := Redis.zadd game_key user_id redis_score r in
  Redis.zadd global_key user_id score r.

(** [User.objects.filter(id__in=user_ids)] collected into
    [{user.id: user}]. *)
Definition user_dict_of (db : Database) (user_ids : list Z) : gmap Z User.t :=
  filter (λ kv, kv.1 ∈ user_ids) (User_objects db).

(** The loop over [enumerate(ranked_users, start=rank)] of
    [get_leaderboard]. *)
Fixpoint leaderboard_rows (user_dict : gmap Z User.t) (score_type : string)
    (rank : Z) (ranked_users : list (Z * Z)) : list LeaderboardEntry :=
  match ranked_users with
  | [] => []
  | (user_id, redis_score) :: rest =>
      match user_dict !! user_id with
      | Some user =>
          let actual_score := _convert_score_from_redis redis_score score_type in
          mkLeaderboardEntry rank user_id (User.email user)
            (Py.or_str (User.name user) (User.email user)) actual_score
          :: leaderboard_rows user_dict score_type (rank + 1) rest
      | None => leaderboard_rows user_dict score_type (rank + 1) rest
      end
  end.

Definition get_leaderboard (db : Database) (r : Redis.t)
    (game_id start end_ : Z) : list LeaderboardEntry :=
  match Game_objects db !! game_id with
  | None => []
  | Some game =>
      let game_key := get_leaderboard_key game_id in
      let ranked_users := Redis.zrevrange game_key start end_ r in
      match ranked_users with
      | [] => []
      | _ =>
          let user_ids := ranked_users.*1 in
          let user_dict := user_dict_of db user_ids in
          leaderboard_rows user_dict (Game.score_type game) (start + 1) ranked_users
      end
  end.

(** The loop of [get_global_leaderboard]. *)
Fixpoint global_rows (user_dict : gmap Z User.t)
    (rank : Z) (ranked_users : list (Z * Z)) : list GlobalLeaderboardEntry :=
  match ranked_users with
  | [] => []
  | (user_id, total_score) :: rest =>
      match user_dict !! user_id with
      | Some user =>
          mkGlobalLeaderboardEntry rank user_id (User.email user)
            (Py.or_str (User.name user) (User.email user)) total_score
          :: global_rows user_dict (rank + 1) rest
      | None => global_rows user_dict (rank + 1) rest
      end
  end.

Definition get_global_leaderboard (db : Database) (r : Redis.t)
    (start end_ : Z) : list GlobalLeaderboardEntry :=
  let global_key := get_global_leaderboard_key in
  let ranked_users := Redis.zrevrange global_key start end_ r in
  match ranked_users with
  | [] => []
  | _ =>
      let user_ids := ranked_users.*1 in
      let user_dict := user_dict_of db user_ids in
      global_rows user_dict (start + 1) ranked_users
  end.

Definition get_user_rank (db : Database) (r : Redis.t)
    (game_id user_id : Z) : option UserRank :=
  match Game_objects db !! game_id with
  | None => None
  | Some game =>
      let game_key := get_leaderboard_key game_id in
      match Redis.zrevrank game_key user_id r with
      | None => None
      | Some rank =>
          match Redis.zscore game_key user_id r with
          | None => None   (* dead: a ranked member has a score, [zrevrank_zscore] *)
          | Some redis_score =>
              let actual_score :=
                _convert_score_from_redis redis_score (Game.score_type game) in
              let start_rank := Z.max 0 (rank - 5) in
              let end_rank := rank + 5 in
              let surrounding_players :=
                get_leaderboard db r game_id start_rank end_rank in
              Some (mkUserRank (rank + 1) actual_score surrounding_players
                      (Redis.zcard game_key r))
          end
      end
  end.

Definition get_user_global_rank (r : Redis.t) (user_id : Z)
    : option UserGlobalRank :=
  let global_key := get_global_leaderboard_key in
  match Redis.zrevrank global_key user_id r with
  | None => None
  | Some rank =>
      match Redis.zscore global_key user_id r with
      | None => None   (* dead: a ranked member has a score, [zrevrank_zscore] *)
      | Some total_score =>
          Some (mkUserGlobalRank (rank + 1) total_score
                  (Redis.zcard global_key r))
      end
  end.

Definition clear_leaderboard (game_id : Z) (r : Redis.t) : Redis.t :=
  Redis.delete (get_leaderboard_key game_id) r.

Definition clear_global_leaderboard (r : Redis.t) : Redis.t :=
  Redis.delete get_global_leaderboard_key r.

(** One iteration of the first loop of [rebuild_leaderboard]: fold a score
    row into the [user_scores] dictionary. *)
Definition rebuild_step (score_type : string) (user_scores : gmap Z Z)
    (score : Score.t) : gmap Z Z :=
  let user_id := Score.user score in
  let current_score := Score.score score in
  match user_scores !! user_id with
  | None => <[user_id := current_score]> user_scores
  | Some best =>
      if String.eqb score_type "highest"
      then <[user_id := Z.max best current_score]> user_scores
      else <[user_id := Z.min best current_score]> user_scores
  end.

(** [Score.objects.filter(game=game)]. *)
Definition scores_of_game (db : Database) (game_id : Z) : list Score.t :=
  filter (λ s, Score.game s = game_id) (Score_objects db).

(** The [user_scores] dictionary after the first loop. *)
Definition rebuild_user_scores (db : Database) (game_id : Z)
    (score_type : string) : gmap Z Z :=
  foldl (rebuild_step score_type) ∅ (scores_of_game db game_id).

(** The writes to distinct members of the second loop commute, so the
    insertion order of the Python dictionary is not tracked: the loop over
    [user_scores.items()] is a fold over the finite map. *)
Definition rebuild_leaderboard (db : Database) (r : Redis.t)
    (game_id : Z) : Redis.t :=
  match Game_objects db !! game_id with
  | None => r
  | Some game =>
      let r := clear_leaderboard game_id r in
      let user_scores := rebuild_user_scores db game_id (Game.score_type game) in
      map_fold
        (λ user_id score r,
           update_user_score game_id user_id score (Game.score_type game) r)
        r user_scores
  end.

End LeaderboardService.

Import LeaderboardService.

(** ** Score model methods *)

(** [Score.update_redis_leaderboard]. *)
Definition Score_update_redis_leaderboard (db : Database) (self : Score.t)
    (r : Redis.t) : Redis.t :=
  match Game_objects db !! Score.game self with
  | None => r   (* excluded by the foreign key *)
  | Some game =>
      LeaderboardService.update_user_score (Score.game self) (Score.user self)
        (Score.score self) (Game.score_type game) r
  end.

(** [Score.objects.create(...)]: [save()] inserts the new row, then, the row
    being new, updates the Redis leaderboard. *)
Definition Score_objects_create (db : Database) (r : Redis.t)
    (user game score : Z) : Database * Redis.t :=
  let self := Score.mk user game score in
  let db := mkDatabase (Game_objects db) (User_objects db) (self :: Score_objects db) in
  (db, Score_update_redis_leaderboard db self r).

(** [order_by("-score")] and [order_by("score")] on score rows. *)
Definition score_desc (a b : Score.t) : Prop := Score.score b ≤ Score.score a.
Definition score_asc (a b : Score.t) : Prop := Score.score a ≤ Score.score b.

#[global] Instance score_desc_dec : RelDecision score_desc :=
  λ a b, decide (Score.score b ≤ Score.score a).
#[global] Instance score_asc_dec : RelDecision score_asc :=
  λ a b, decide (Score.score a ≤ Score.score b).

(** [Score.get_user_best_score(user, game)]. *)
Definition Score_get_user_best_score (db : Database) (user game : Z)
    : option Score.t :=
  let scores :=
    filter (λ s, Score.user s = user ∧ Score.game s = game) (Score_objects db) in
  match Game_objects db !! game with
  | None => None   (* excluded: [game] is a model instance *)
  | Some g =>
      if String.eqb (Game.score_type g) "highest"
      then head (merge_sort score_desc scores)
      else head (merge_sort score_asc scores)
  end.

(** ** ScoreSubmissionView.post

    [post] is the method itself; the rate limiter that decorates it is
    [ratelimit_blocks], and the method as it is served behind the limiter
    is [ScoreSubmissionView_post]. *)

Inductive Response :=
  | Http400
  | Http404
  | Http201 (score : Z) (is_personal_best : bool) (rank_info : option (Z * Z)).

(** [ScoreSubmissionSerializer.is_valid()]: a non-negative score of at most
    twelve digits for a game that exists and is active. *)
Definition ScoreSubmissionSerializer_is_valid (db : Database)
    (game_id score : Z) : bool :=
  (0 <=? score) && (score <? 10 ^ 12) &&
  match Game_objects db !! game_id with
  | Some game => Game.is_active game
  | None => false
  end.

Definition post (db : Database) (r : Redis.t) (request_user game_id score_value : Z)
    : Database * Redis.t * Response :=
  if negb (ScoreSubmissionSerializer_is_valid db game_id score_value)
  then (db, r, Http400)
  else
    match Game_objects db !! game_id with
    | None => (db, r, Http404)
    | Some game =>
        let '(db, r) := Score_objects_create db r request_user game_id score_value in
        let rank_info := LeaderboardService.get_user_rank db r game_id request_user in
        let previous_best := Score_get_user_best_score db request_user game_id in
        let is_personal_best :=
          match previous_best with
          | Some previous_best =>
              if String.eqb (Game.score_type game) "highest"
              then bool_decide (Score.score previous_best < score_value)
              else bool_decide (score_value < Score.score previous_best)
          | None => true
          end in
        (db, r,
         Http201 score_value is_personal_best
           ((λ i, (user_rank i, total_players i)) <$> rank_info))
    end.

(** ** Reference definitions

    The notions the statements about the code are measured against. *)

(** The scoring policies of the specification, and the policy a
    [score_type] value of the [Game] model stands for. *)
Inductive Policy := HighestWins | LowestWins | TimeWins.

#[global] Instance Policy_eq_dec : EqDecision Policy.
Proof. solve_decision. Defined.

Definition policy_of (score_type : string) : option Policy :=
  if String.eqb score_type "highest" then Some HighestWins
  else if String.eqb score_type "lowest" then Some LowestWins
  else if String.eqb score_type "time" then Some TimeWins
  else None.

(** The normalizer of the specification: the sort key is the negated raw
    score for highest-wins and the raw score otherwise, so that a smaller
    key is a better score. *)
Definition normalize (raw : Z) (p : Policy) : Z :=
  match p with
  | HighestWins => - raw
  | LowestWins | TimeWins => raw
  end.

(** The "keep better" upsert of the specification: a user's entry is
    replaced only by a strictly better key. *)
Definition keep_best_upsert (p : Policy) (index : gmap Z Z) (s : Score.t)
    : gmap Z Z :=
  let key := normalize (Score.score s) p in
  match index !! Score.user s with
  | None => <[Score.user s := key]> index
  | Some old => if key <? old then <[Score.user s := key]> index else index
  end.

(** Replaying a score log, oldest record first, with keep-best semantics,
    from an empty index. *)
Definition replay_keep_best (p : Policy) (log : list Score.t) : gmap Z Z :=
  foldl (keep_best_upsert p) ∅ log.

(** The score log of a game in submission order: the table lists the newest
    row first. *)
Definition log_of_game (db : Database) (game_id : Z) : list Score.t :=
  reverse (LeaderboardService.scores_of_game db game_id).

(** The raw scores of one user in a list of score rows, in list order. *)
Definition raws_of (u : Z) (l : list Score.t) : list Z :=
  Score.score <$> filter (λ s, Score.user s = u) l.

(** Folding raw scores with a binary choice, starting from nothing. *)
Definition opt_keep (pick : Z → Z → Z) (o : option Z) (x : Z) : option Z :=
  Some (match o with None => x | Some y => pick y x end).

Definition best_with (pick : Z → Z → Z) (xs : list Z) : option Z :=
  foldl (opt_keep pick) None xs.

(** The choice [rebuild_leaderboard] makes between two scores of a user. *)
Definition pick_of (score_type : string) : Z → Z → Z :=
  if String.eqb score_type "highest" then Z.max else Z.min.

(** The row [get_leaderboard] builds for a ranked entry of a resolved user. *)
Definition row_of (score_type : string) (rank : Z) (entry : Z * Z)
    (user : User.t) : LeaderboardEntry :=
  mkLeaderboardEntry rank entry.1 (User.email user)
    (Py.or_str (User.name user) (User.email user))
    (_convert_score_from_redis entry.2 score_type).

(** The sum of all raw scores a user ever submitted, across all games. *)
Definition sum_of_raw_scores (db : Database) (u : Z) : Z :=
  foldr Z.add 0 (raws_of u (Score_objects db)).

(** The Redis state [rebuild_leaderboard] leaves for a game whose
    per-user best raw scores are [m]. *)
Definition rebuilt (game_id : Z) (score_type : string) (m : gmap Z Z)
    (r : Redis.t) : Redis.t :=
  let game_key := get_leaderboard_key game_id in
  let global_key := get_global_leaderboard_key in
  if decide (m = ∅) then Redis.delete game_key r
  else
    <[global_key := m ∪ Redis.zset_at global_key r]>
      (<[game_key := (λ s, _convert_score_for_redis s score_type) <$> m]> r).

(** ** Scenario data *)

Module Scenario.
Definition U1 : Z := 1.
Definition U2 : Z := 2.
Definition U3 : Z := 3.
Definition G : Z := 7.

Definition people : gmap Z User.t :=
  <[U1 := User.mk "u1@example.com" "Ann"]>
  (<[U2 := User.mk "u2@example.com" "Bob"]>
  (<[U3 := User.mk "u3@example.com" ""]> ∅)).

(** A database holding one active game [G] of the given score type and no
    score yet. *)
Definition db0 (score_type : string) : Database :=
  mkDatabase {[ G := Game.mk "game" true score_type ]} people [].

(** Submit the listed (user, score) pairs to [G], in order, through
    [Score.objects.create]. *)
Definition submit_all (st : Database * Redis.t) (l : list (Z * Z))
    : Database * Redis.t :=
  foldl (λ st us, Score_objects_create st.1 st.2 us.1 G us.2) st l.

(** Scenario A: U1 submits 100, U2 250, U3 90 to a highest-wins game. *)
Definition stA : Database * Redis.t :=
  submit_all (db0 "highest", ∅) [(U1, 10000); (U2, 25000); (U3, 9000)].

(** Scenario B: U1 submits 12.50, U2 9.75 to a time game. *)
Definition stB : Database * Redis.t :=
  submit_all (db0 "time", ∅) [(U1, 1250); (U2, 975)].

(** Scenario C: U1 submits 10, then 5, to a highest-wins game. *)
Definition stC : Database * Redis.t :=
  submit_all (db0 "highest", ∅) [(U1, 1000); (U1, 500)].
(** Scenario D: a second game [G2], scored by time; U1 submits 10 to [G]
    (highest wins), then 5 to [G2]. *)
Definition G2 : Z := 8.

Definition dbD : Database :=
  mkDatabase
    (<[G := Game.mk "game" true "highest"]>
       {[ G2 := Game.mk "race" true "time" ]})
    people [].

Definition stD : Database * Redis.t :=
  let st := Score_objects_create dbD ∅ U1 G 1000 in
  Score_objects_create st.1 st.2 U1 G2 500.

(** Scenario E: with the two games of scenario D, U1 submits 10 to [G] and
    U2 submits 9.75 to [G2]. *)
Definition stE : Database * Redis.t :=
  let st := Score_objects_create dbD ∅ U1 G 1000 in
  Score_objects_create st.1 st.2 U2 G2 975.

(** Scenario A after the account of U1 was deleted from the user table
    while its entry stayed in the Redis index. *)
Definition dbA_without_U1 : Database :=
  mkDatabase (Game_objects stA.1) (base.delete U1 people)
    (filter (λ s, Score.user s ≠ U1) (Score_objects stA.1)).

(** The projection of a leaderboard page on (rank, user, score). *)
Definition summary (page : list LeaderboardEntry) : list (Z * Z * Z) :=
  (λ row, (rank row, user_id row, score row)) <$> page.
End Scenario.

(** ** Further model methods and views

    Query parameters are carried as the integers they denote ([None] when
    the parameter is absent or empty): a parameter that does not parse makes
    [int()] raise before anything is written. *)

(** [ratelimit(key="user", rate="30/m", method="POST", block=True)], the
    decorator of [ScoreSubmissionView.post]: the limiter counts the request
    in the user's current one-minute window and refuses it when the count,
    this request included, exceeds 30.  [hits] is the number of POST
    requests of the user already counted in that window; the counter lives
    in the Django cache, outside the state modelled here. *)
Definition ratelimit_blocks (hits : Z) : bool := 30 <? hits + 1.

(** The answer of a rate-limited view: 403 when the limiter refuses the
    request, the response of the view otherwise. *)
Inductive Answer :=
  | Http403
  | Answered (response : Response).

(** [ScoreSubmissionView.post] as it is served: [post] behind its rate
    limiter.  A refused request reaches neither the serializer nor the
    database. *)
Definition ScoreSubmissionView_post (hits : Z) (db : Database) (r : Redis.t)
    (request_user game_id score_value : Z) : Database * Redis.t * Answer :=
  if ratelimit_blocks hits then (db, r, Http403)
  else
    let '(db, r, response) := post db r request_user game_id score_value in
    (db, r, Answered response).

(** [Game.redis_key], for the game with primary key [id]. *)
Definition Game_redis_key (id : Z) : string := "leaderboard:" +:+ Py.str id.

(** [Game.get_redis_score]. *)
Definition Game_get_redis_score (self : Game.t) (user_score : Z) : Z :=
  if String.eqb (Game.score_type self) "lowest"
     || String.eqb (Game.score_type self) "time"
  then user_score
  else - user_score.

(** The outcome of code that may raise [ValueError]. *)
Inductive result (A : Type) :=
  | Ok (a : A)
  | ValueError.
Arguments Ok {A} a.
Arguments ValueError {A}.

(** [qs[start:stop]] on a Django QuerySet: a negative bound is refused
    ("Negative indexing is not supported"), otherwise the slice is the one
    of a Python list. *)
Definition queryset_slice {A} (qs : list A) (start stop : Z) : result (list A) :=
  if (start <? 0) || (stop <? 0) then ValueError
  else Ok (take (Z.to_nat (stop - start)) (drop (Z.to_nat start) qs)).

(** [Score.get_user_score_history(user, game, limit)]. *)
Definition Score_get_user_score_history (db : Database) (user game : Z)
    (limit : option Z) : result (list Score.t) :=
  let queryset :=
    filter (λ s, Score.user s = user ∧ Score.game s = game) (Score_objects db) in
  match limit with
  | None => Ok queryset
  | Some limit =>
      if limit =? 0 then Ok queryset   (* [if limit:] is false for 0 *)
      else queryset_slice queryset 0 limit
  end.

(** The HTTP outcomes of the read views. *)
Inductive Reply (A : Type) :=
  | Reply200 (body : A)
  | Reply400
  | Reply404.
Arguments Reply200 {A} body.
Arguments Reply400 {A}.
Arguments Reply404 {A}.

(** The body of [LeaderboardView.get]. *)
Record LeaderboardPage := mkLeaderboardPage {
  lp_game_id : Z;
  lp_game_name : string;
  lp_leaderboard : list LeaderboardEntry;
  lp_page : Z;
  lp_page_size : Z;
  lp_has_next : bool
}.

(** [LeaderboardView.get], for a page whose window lies in the index range
    Redis accepts ([Redis.int64]); beyond it ZREVRANGE is refused and the
    view fails. *)
Definition LeaderboardView_get (db : Database) (r : Redis.t) (game_id : Z)
    (page page_size : option Z) : Reply LeaderboardPage :=
  match Game_objects db !! game_id with
  | None => Reply404
  | Some game =>
      let page := default 1 page in
      let page_size := default 20 page_size in
      let page_size := Z.min page_size 100 in
      let start := (page - 1) * page_size in
      let end_ := start + page_size - 1 in
      let leaderboard := get_leaderboard db r game_id start end_ in
      Reply200
        (mkLeaderboardPage game_id (Game.name game) leaderboard page page_size
           (bool_decide (Z.of_nat (length leaderboard) = page_size)))
  end.

(** The body of [ScoreHistoryView.get]. *)
Record ScoreHistoryPage := mkScoreHistoryPage {
  hp_game_id : Z;
  hp_game_name : string;
  hp_scores : list Score.t;
  hp_page : Z;
  hp_page_size : Z;
  hp_has_next : bool
}.

(** [ScoreHistoryView.get]. *)
Definition ScoreHistoryView_get (db : Database) (request_user : Z)
    (game_id page page_size : option Z) : result (Reply ScoreHistoryPage) :=
  match game_id with
  | None => Ok Reply400
  | Some game_id =>
      match Game_objects db !! game_id with
      | None => Ok Reply404
      | Some game =>
          let scores :=
            filter (λ s, Score.user s = request_user ∧ Score.game s = game_id)
              (Score_objects db) in
          let page := default 1 page in
          let page_size := default 20 page_size in
          let page_size := Z.min page_size 100 in
          let start := (page - 1) * page_size in
          let end_ := start + page_size in
          match queryset_slice scores start end_ with
          | ValueError => ValueError
          | Ok paginated_scores =>
              Ok (Reply200
                    (mkScoreHistoryPage game_id (Game.name game) paginated_scores
                       page page_size
                       (bool_decide
                          (Z.of_nat (length paginated_scores) = page_size))))
          end
      end
  end.

(** The loop of the admin action
    [rebuild_leaderboard_for_selected_games], over the game ids its query
    yields. *)
Definition rebuild_leaderboard_for_selected_games (db : Database)
    (r : Redis.t) (game_ids : list Z) : Redis.t :=
  foldl (λ r game_id, rebuild_leaderboard db r game_id) r game_ids.

(** One raw score is at least as good as another under a score type, as
    [rebuild_leaderboard] and [get_user_best_score] order them. *)
Definition at_least_as_good (score_type : string) (a b : Z) : Prop :=
  if String.eqb score_type "highest" then b ≤ a else a ≤ b.

(** * Properties *)

(** ** Key names *)

Section keys.

Lemma pretty_N_go_ne_global (x : N) (s : string) :
  s ≠ "global" → pretty_N_go x s ≠ "global".
Proof.
  revert s. induction (N.lt_wf_0 x) as [x _ IH]. intros s Hs.
  destruct (decide (x = 0%N)) as [->|Hx].
  - by rewrite pretty_N_go_0.
  - rewrite pretty_N_go_step by lia.
    apply IH; [apply N.div_lt; lia|].
    unfold pretty_N_char. by repeat case_match.
Qed.

Lemma str_ne_global (n : Z) : Py.str n ≠ "global".
Proof.
  unfold Py.str, pretty, pretty_Z. destruct n as [|p|p]; [done| |done].
  unfold pretty, pretty_positive, pretty, pretty_N.
  case_decide; [done|]. by apply pretty_N_go_ne_global.
Qed.

Lemma game_key_ne_global (game_id : Z) :
  get_leaderboard_key game_id ≠ get_global_leaderboard_key.
Proof.
  unfold get_leaderboard_key, get_global_leaderboard_key. simpl.
  intros [= H]. by apply str_ne_global in H.
Qed.

Lemma game_key_inj (g1 g2 : Z) :
  get_leaderboard_key g1 = get_leaderboard_key g2 → g1 = g2.
Proof.
  unfold get_leaderboard_key, Py.str. simpl. intros [= H].
  by apply pretty_Z_inj in H.
Qed.

End keys.

(** ** Redis commands *)

Section redis.
Implicit Types (r : gmap string (gmap Z Z)) (z : gmap Z Z) (key : string).

Lemma zset_at_zadd_eq key member s r :
  Redis.zset_at key (Redis.zadd key member s r) = <[member := s]> (Redis.zset_at key r).
Proof. unfold Redis.zset_at at 1, Redis.zadd. by rewrite lookup_insert_eq. Qed.

Lemma zset_at_zadd_ne key key' member s r :
  key ≠ key' →
  Redis.zset_at key' (Redis.zadd key member s r) = Redis.zset_at key' r.
Proof. intros. unfold Redis.zset_at, Redis.zadd. by rewrite lookup_insert_ne. Qed.

Lemma zset_at_delete_eq key r : Redis.zset_at key (Redis.delete key r) = ∅.
Proof. unfold Redis.zset_at, Redis.delete. by rewrite lookup_delete_eq. Qed.

Lemma zset_at_delete_ne key key' r :
  key ≠ key' → Redis.zset_at key' (Redis.delete key r) = Redis.zset_at key' r.
Proof. intros. unfold Redis.zset_at, Redis.delete. by rewrite lookup_delete_ne. Qed.

Lemma ascending_perm z : Redis.ascending z ≡ₚ map_to_list z.
Proof. apply merge_sort_Permutation. Qed.

Lemma descending_perm z : Redis.descending z ≡ₚ map_to_list z.
Proof.
  unfold Redis.descending. by rewrite reverse_Permutation, ascending_perm.
Qed.

Lemma descending_length z : length (Redis.descending z) = size z.
Proof. by rewrite descending_perm, length_map_to_list. Qed.

Lemma elem_of_descending z member s :
  (member, s) ∈ Redis.descending z ↔ z !! member = Some s.
Proof. by rewrite descending_perm, elem_of_map_to_list. Qed.

Lemma position_None member (l : list (Z * Z)) :
  Redis.position member l = None ↔ member ∉ l.*1.
Proof.
  induction l as [|e l IH]; simpl.
  - split; [intros _; apply not_elem_of_nil|done].
  - case_decide as He.
    + split; [done|]. intros Hn. destruct Hn. subst. apply list_elem_of_here.
    + rewrite fmap_None, IH, not_elem_of_cons. split; [by intros ?|by intros [_ ?]].
Qed.

(** A member has a rank exactly when it has a score: the branch of
    [get_user_rank] where ZREVRANK answers and ZSCORE does not is dead. *)
Lemma zrevrank_zscore key member r :
  is_Some (Redis.zrevrank key member r) ↔ is_Some (Redis.zscore key member r).
Proof.
  unfold Redis.zrevrank, Redis.zscore.
  rewrite <-not_eq_None_Some, position_None, <-elem_of_dom.
  split.
  - intros Hin. apply dec_stable in Hin.
    apply list_elem_of_fmap in Hin as [[m s] [-> Hin]].
    apply elem_of_descending in Hin. apply elem_of_dom. by exists s.
  - intros [s Hs]%elem_of_dom Hn. apply Hn.
    apply list_elem_of_fmap. exists (member, s). split; [done|].
    by apply elem_of_descending.
Qed.

Lemma range_by_rank_empty {A} (l : list A) (start stop : Z) :
  0 ≤ stop < start ∨ Z.of_nat (length l) ≤ start →
  Redis.range_by_rank l start stop = [].
Proof.
  intros H. unfold Redis.range_by_rank. cbv zeta.
  destruct (Z.ltb_spec start 0), (Z.ltb_spec stop 0);
  repeat match goal with
         | |- context [Z.ltb ?a ?b] => destruct (Z.ltb_spec a b)
         | |- context [Z.leb ?a ?b] => destruct (Z.leb_spec a b)
         end; simpl; try done; lia.
Qed.

#[local] Instance entry_le_total : Total Redis.entry_le.
Proof.
  intros a b. unfold Redis.entry_le, Redis.entry_leb.
  destruct (Z.ltb_spec a.2 b.2); [by left|].
  destruct (Z.ltb_spec b.2 a.2); [by right|].
  assert (a.2 = b.2) as Heq by lia. rewrite Heq, Z.eqb_refl. simpl.
  apply String.leb_total.
Qed.

Lemma entry_le_score (a b : Z * Z) : Redis.entry_le a b → a.2 ≤ b.2.
Proof.
  unfold Redis.entry_le, Redis.entry_leb.
  destruct (Z.ltb_spec a.2 b.2); [lia|].
  destruct (Z.eqb_spec a.2 b.2); [lia|done].
Qed.

Lemma Sorted_weaken {A} (R1 R2 : relation A) (l : list A) :
  (∀ a b, R1 a b → R2 a b) → Sorted R1 l → Sorted R2 l.
Proof.
  intros HR. induction 1 as [|a l _ IH Hhd]; constructor; [done|].
  destruct Hhd; constructor; auto.
Qed.

(** ZREVRANGE order: every entry has a score no higher than the entries
    before it. *)
Lemma descending_sorted z :
  StronglySorted (λ a b : Z * Z, b.2 ≤ a.2) (Redis.descending z).
Proof.
  apply Sorted_StronglySorted; [intros a b c; lia|].
  apply (Sorted_reverse (λ a b : Z * Z, a.2 ≤ b.2)).
  apply (Sorted_weaken Redis.entry_le); [apply entry_le_score|].
  apply Sorted_merge_sort, _.
Qed.

Lemma range_by_rank_from_0 {A} (l : list A) (stop : Z) :
  head (Redis.range_by_rank l 0 stop) = None
  ∨ head (Redis.range_by_rank l 0 stop) = head l.
Proof.
  unfold Redis.range_by_rank. cbv zeta. simpl.
  set (stop' := if stop <? 0 then _ else _).
  destruct (Z.ltb_spec stop' 0); [by left|].
  destruct (Z.leb_spec (Z.of_nat (length l)) 0); [by left|right]. simpl.
  set (n := Z.to_nat _).
  assert (n ≠ 0%nat) as Hn by (subst n; case_match; lia).
  destruct n; [done|]. by destruct l.
Qed.

(** The first entry of a ZREVRANGE that starts at index 0 carries the
    highest score of the sorted set. *)
Lemma zrevrange_head_max key stop r entry member s :
  head (Redis.zrevrange key 0 stop r) = Some entry →
  Redis.zscore key member r = Some s → s ≤ entry.2.
Proof.
  unfold Redis.zrevrange, Redis.zscore. intros Hhd Hs.
  destruct (range_by_rank_from_0 (Redis.descending (Redis.zset_at key r)) stop)
    as [Hn|Heq]; [by rewrite Hn in Hhd|].
  rewrite Heq in Hhd. apply elem_of_descending in Hs.
  pose proof (descending_sorted (Redis.zset_at key r)) as Hsorted.
  destruct (Redis.descending _) as [|e l]; [done|].
  injection Hhd as ->.
  apply StronglySorted_cons in Hsorted as [Hall _].
  apply elem_of_cons in Hs as [<-|Hs]; [done|].
  rewrite Forall_forall in Hall. by apply (Hall _ Hs).
Qed.

End redis.

(** ** The two loops of [rebuild_leaderboard] *)

Section rebuild.
Implicit Types (r : gmap string (gmap Z Z)) (m acc : gmap Z Z) (l : list Score.t).

Lemma update_user_score_game_key g u s st r :
  Redis.zset_at (get_leaderboard_key g) (update_user_score g u s st r)
  = <[u := _convert_score_for_redis s st]> (Redis.zset_at (get_leaderboard_key g) r).
Proof.
  unfold update_user_score.
  rewrite zset_at_zadd_ne by (apply not_eq_sym, game_key_ne_global).
  apply zset_at_zadd_eq.
Qed.

Lemma update_user_score_global_key g u s st r :
  Redis.zset_at get_global_leaderboard_key (update_user_score g u s st r)
  = <[u := s]> (Redis.zset_at get_global_leaderboard_key r).
Proof.
  unfold update_user_score. rewrite zset_at_zadd_eq.
  by rewrite zset_at_zadd_ne by apply game_key_ne_global.
Qed.

Lemma update_user_score_lookup g u s st r key :
  update_user_score g u s st r !! key =
    if decide (key = get_global_leaderboard_key)
    then Some (<[u := s]> (Redis.zset_at get_global_leaderboard_key r))
    else if decide (key = get_leaderboard_key g)
    then Some (<[u := _convert_score_for_redis s st]>
                 (Redis.zset_at (get_leaderboard_key g) r))
    else r !! key.
Proof.
  pose proof (game_key_ne_global g) as Hne.
  unfold update_user_score, Redis.zadd.
  repeat case_decide; subst.
  - rewrite lookup_insert_eq. f_equal. f_equal.
    unfold Redis.zset_at. by rewrite lookup_insert_ne.
  - by rewrite lookup_insert_ne, lookup_insert_eq by done.
  - by rewrite !lookup_insert_ne by done.
Qed.

Lemma rebuilt_lookup_game g st m r :
  rebuilt g st m r !! get_leaderboard_key g =
    if decide (m = ∅) then None
    else Some ((λ s, _convert_score_for_redis s st) <$> m).
Proof.
  pose proof (game_key_ne_global g) as Hne.
  unfold rebuilt, Redis.delete. case_decide.
  - by rewrite lookup_delete_eq.
  - by rewrite lookup_insert_ne, lookup_insert_eq by done.
Qed.

Lemma rebuilt_lookup_global g st m r :
  rebuilt g st m r !! get_global_leaderboard_key =
    if decide (m = ∅) then r !! get_global_leaderboard_key
    else Some (m ∪ Redis.zset_at get_global_leaderboard_key r).
Proof.
  pose proof (game_key_ne_global g) as Hne.
  unfold rebuilt, Redis.delete. case_decide.
  - by rewrite lookup_delete_ne.
  - by rewrite lookup_insert_eq.
Qed.

Lemma rebuilt_lookup_other g st m r key :
  key ≠ get_leaderboard_key g → key ≠ get_global_leaderboard_key →
  rebuilt g st m r !! key = r !! key.
Proof.
  intros. unfold rebuilt, Redis.delete. case_decide.
  - by rewrite lookup_delete_ne.
  - by rewrite !lookup_insert_ne.
Qed.

(** The game index after a rebuild holds the converted best scores. *)
Lemma rebuilt_game_key g st m r :
  Redis.zset_at (get_leaderboard_key g) (rebuilt g st m r)
  = (λ s, _convert_score_for_redis s st) <$> m.
Proof.
  unfold Redis.zset_at. rewrite rebuilt_lookup_game.
  case_decide as Hm; [|done]. subst. by rewrite fmap_empty.
Qed.

(** The global index after a rebuild: the best scores of the rebuilt game
    written over the entries that were there. *)
Lemma rebuilt_global_key g st m r :
  Redis.zset_at get_global_leaderboard_key (rebuilt g st m r)
  = m ∪ Redis.zset_at get_global_leaderboard_key r.
Proof.
  unfold Redis.zset_at at 1. rewrite rebuilt_lookup_global.
  case_decide as Hm; [|done]. subst. by rewrite (left_id_L ∅ (∪)).
Qed.

(** The second loop, in closed form. *)
Lemma rebuild_writes g st m r :
  map_fold (λ user_id score r, update_user_score g user_id score st r)
    (clear_leaderboard g r) m
  = rebuilt g st m r.
Proof.
  pose proof (game_key_ne_global g) as Hne.
  apply (map_fold_weak_ind (λ r' m, r' = rebuilt g st m r)).
  - unfold rebuilt, clear_leaderboard. by rewrite decide_True.
  - intros u s m' r' Hu ->. apply map_eq. intros key.
    rewrite update_user_score_lookup, rebuilt_global_key, rebuilt_game_key.
    assert (<[u:=s]> m' ≠ ∅) as Hm by apply insert_non_empty.
    destruct (decide (key = get_global_leaderboard_key)) as [->|Hk1].
    + rewrite rebuilt_lookup_global, decide_False by done.
      by rewrite insert_union_l.
    + destruct (decide (key = get_leaderboard_key g)) as [->|Hk2].
      * rewrite rebuilt_lookup_game, decide_False by done.
        by rewrite fmap_insert.
      * by rewrite !rebuilt_lookup_other.
Qed.

Lemma rebuild_leaderboard_closed_form db r g game :
  Game_objects db !! g = Some game →
  rebuild_leaderboard db r g
  = rebuilt g (Game.score_type game)
      (rebuild_user_scores db g (Game.score_type game)) r.
Proof.
  intros Hg. unfold rebuild_leaderboard. rewrite Hg. apply rebuild_writes.
Qed.

End rebuild.

(** ** Best scores: the first loop and the keep-best replay *)

Section best.
Implicit Types (m acc index : gmap Z Z) (l log : list Score.t) (xs : list Z).

Lemma raws_of_cons u s l :
  raws_of u (s :: l) =
    if decide (Score.user s = u) then Score.score s :: raws_of u l
    else raws_of u l.
Proof. unfold raws_of. rewrite filter_cons. by case_decide. Qed.

Lemma raws_of_reverse u l : raws_of u (reverse l) = reverse (raws_of u l).
Proof. unfold raws_of. by rewrite filter_reverse, fmap_reverse. Qed.

(** The dictionary built by the first loop of [rebuild_leaderboard]. *)
Lemma rebuild_steps_lookup st acc l u :
  foldl (rebuild_step st) acc l !! u
  = foldl (opt_keep (pick_of st)) (acc !! u) (raws_of u l).
Proof.
  revert acc. induction l as [|s l IH]; intros acc; [done|].
  rewrite raws_of_cons. simpl. rewrite IH. clear IH.
  unfold rebuild_step, pick_of, opt_keep at 2.
  case_decide as Hu.
  - subst u. simpl. f_equal.
    destruct (acc !! Score.user s) as [best|];
      [destruct (String.eqb st "highest")|]; by rewrite lookup_insert_eq.
  - f_equal.
    destruct (acc !! Score.user s) as [best|];
      [destruct (String.eqb st "highest")|]; by rewrite lookup_insert_ne.
Qed.

Lemma rebuild_user_scores_lookup db g st u :
  rebuild_user_scores db g st !! u
  = best_with (pick_of st) (raws_of u (scores_of_game db g)).
Proof.
  unfold rebuild_user_scores, best_with.
  by rewrite rebuild_steps_lookup, lookup_empty.
Qed.

(** A user without a score row in the game is absent from the dictionary. *)
Lemma rebuild_user_scores_absent db g st u :
  (∀ s, s ∈ Score_objects db → Score.game s = g → Score.user s ≠ u) →
  rebuild_user_scores db g st !! u = None.
Proof.
  intros Hno. rewrite rebuild_user_scores_lookup.
  replace (raws_of u (scores_of_game db g)) with (@nil Z); [done|].
  symmetry. unfold raws_of, scores_of_game.
  induction (Score_objects db) as [|s l IH]; [done|].
  rewrite filter_cons. case_decide as Hg.
  - rewrite filter_cons. case_decide as Hu.
    + exfalso. eapply Hno; [apply list_elem_of_here|done..].
    + apply IH. intros s' Hs'. apply Hno. by apply list_elem_of_further.
  - apply IH. intros s' Hs'. apply Hno. by apply list_elem_of_further.
Qed.

Lemma pick_of_swap st a x y :
  pick_of st (pick_of st a x) y = pick_of st (pick_of st a y) x.
Proof. unfold pick_of. destruct (String.eqb st "highest"); lia. Qed.

Lemma pick_of_comm st x y : pick_of st x y = pick_of st y x.
Proof. unfold pick_of. destruct (String.eqb st "highest"); lia. Qed.

Lemma opt_keep_swap st o x y :
  opt_keep (pick_of st) (opt_keep (pick_of st) o x) y
  = opt_keep (pick_of st) (opt_keep (pick_of st) o y) x.
Proof.
  unfold opt_keep. f_equal. destruct o; [apply pick_of_swap|apply pick_of_comm].
Qed.

Lemma foldl_opt_keep_head st o x xs :
  foldl (opt_keep (pick_of st)) (opt_keep (pick_of st) o x) xs
  = opt_keep (pick_of st) (foldl (opt_keep (pick_of st)) o xs) x.
Proof.
  revert o. induction xs as [|y xs IH]; intros o; [done|].
  simpl. by rewrite opt_keep_swap, IH.
Qed.

(** The best score does not depend on the order of the rows. *)
Lemma best_with_reverse st xs :
  best_with (pick_of st) (reverse xs) = best_with (pick_of st) xs.
Proof.
  unfold best_with. induction xs as [|x xs IH]; [done|].
  rewrite reverse_cons, foldl_snoc, IH. simpl.
  by rewrite foldl_opt_keep_head.
Qed.

Lemma policy_of_highest st p :
  policy_of st = Some p →
  String.eqb st "highest" = bool_decide (p = HighestWins).
Proof.
  unfold policy_of. destruct (String.eqb st "highest"); [by intros [= <-]|].
  repeat case_match; by intros [= <-].
Qed.

Lemma normalize_convert st p x :
  policy_of st = Some p → normalize x p = _convert_score_for_redis x st.
Proof.
  intros Hp%policy_of_highest. unfold _convert_score_for_redis.
  rewrite Hp. by destruct p.
Qed.

Lemma normalize_pick st p a b :
  policy_of st = Some p →
  normalize (pick_of st a b) p = Z.min (normalize a p) (normalize b p).
Proof.
  intros Hp%policy_of_highest. unfold pick_of. rewrite Hp.
  destruct p; simpl; lia.
Qed.

(** The keep-best replay keeps, for each user, the least key. *)
Lemma replay_steps_lookup p index log u :
  foldl (keep_best_upsert p) index log !! u
  = foldl (opt_keep Z.min) (index !! u) ((λ x, normalize x p) <$> raws_of u log).
Proof.
  revert index. induction log as [|s log IH]; intros index; [done|].
  rewrite raws_of_cons. simpl. rewrite IH. clear IH.
  unfold keep_best_upsert, opt_keep at 2.
  case_decide as Hu.
  - subst u. simpl. f_equal.
    destruct (index !! Score.user s) as [old|] eqn:Hold.
    + destruct (Z.ltb_spec (normalize (Score.score s) p) old).
      * rewrite lookup_insert_eq. f_equal. lia.
      * rewrite Hold. f_equal. lia.
    + by rewrite lookup_insert_eq.
  - f_equal.
    destruct (index !! Score.user s) as [old|]; [case_match|];
      by rewrite ?lookup_insert_ne.
Qed.

Lemma foldl_min_normalize st p o xs :
  policy_of st = Some p →
  foldl (opt_keep Z.min) ((λ x, normalize x p) <$> o) ((λ x, normalize x p) <$> xs)
  = (λ x, normalize x p) <$> foldl (opt_keep (pick_of st)) o xs.
Proof.
  intros Hp. revert o. induction xs as [|x xs IH]; intros o; [done|].
  simpl. rewrite <-IH. f_equal.
  destruct o; simpl; [|done]. by rewrite (normalize_pick st).
Qed.

Lemma replay_keep_best_lookup st p log u :
  policy_of st = Some p →
  replay_keep_best p log !! u
  = (λ x, _convert_score_for_redis x st) <$> best_with (pick_of st) (raws_of u log).
Proof.
  intros Hp. unfold replay_keep_best, best_with.
  rewrite replay_steps_lookup, lookup_empty.
  change (@None Z) with ((λ x, normalize x p) <$> @None Z) at 1.
  rewrite (foldl_min_normalize st) by done.
  destruct (foldl _ _ _); simpl; [|done]. by rewrite (normalize_convert st).
Qed.

End best.

(** ** Leaderboard pages *)

Section pages.
Implicit Types (ranked : list (Z * Z)) (user_dict : gmap Z User.t).

Lemma leaderboard_rows_elem user_dict st ranked rank row :
  row ∈ leaderboard_rows user_dict st rank ranked ↔
  ∃ (i : nat) entry user,
    ranked !! i = Some entry ∧ user_dict !! entry.1 = Some user ∧
    row = row_of st (rank + Z.of_nat i) entry user.
Proof.
  revert rank. induction ranked as [|[uid rs] ranked IH]; intros rank; simpl.
  - split; [by intros ?%elem_of_nil|by intros (i & ? & ? & ? & _)].
  - assert (row ∈ leaderboard_rows user_dict st (rank + 1) ranked ↔
            ∃ (i : nat) entry user,
              ranked !! i = Some entry ∧ user_dict !! entry.1 = Some user ∧
              row = row_of st (rank + Z.of_nat (S i)) entry user) as IH'.
    { rewrite IH. split; intros (i & entry & user & ? & ? & ->);
        exists i, entry, user; (split; [done|]); (split; [done|]);
        f_equal; lia. }
    clear IH. destruct (user_dict !! uid) as [user|] eqn:Hu.
    + rewrite elem_of_cons, IH'. split.
      * intros [->|(i & entry & user' & ? & ? & ->)].
        -- exists 0%nat, (uid, rs), user. unfold row_of. simpl.
           by rewrite Z.add_0_r.
        -- by exists (S i), entry, user'.
      * intros ([|i] & entry & user' & Hi & Hu' & ->); simpl in Hi.
        -- left. injection Hi as <-. simpl in Hu'. rewrite Hu in Hu'.
           injection Hu' as <-. unfold row_of. simpl. by rewrite Z.add_0_r.
        -- right. by exists i, entry, user'.
    + rewrite IH'. split.
      * intros (i & entry & user' & ? & ? & ->). by exists (S i), entry, user'.
      * intros ([|i] & entry & user' & Hi & Hu' & ->); simpl in Hi.
        -- injection Hi as <-. simpl in Hu'. by rewrite Hu in Hu'.
        -- by exists i, entry, user'.
Qed.

(** The dictionary of resolved users answers like the user table on the
    ids it was built from. *)
Lemma user_dict_of_lookup db ranked (i : nat) entry :
  ranked !! i = Some entry →
  user_dict_of db ranked.*1 !! entry.1 = User_objects db !! entry.1.
Proof.
  intros Hi. unfold user_dict_of.
  assert (entry.1 ∈ ranked.*1) as Hin.
  { apply list_elem_of_fmap. exists entry. split; [done|].
    by apply list_elem_of_lookup_2 in Hi. }
  destruct (User_objects db !! entry.1) as [user|] eqn:Hu.
  - by apply map_lookup_filter_Some.
  - apply map_lookup_filter_None. left. done.
Qed.

Lemma get_leaderboard_elem db r g start end_ game row :
  Game_objects db !! g = Some game →
  row ∈ get_leaderboard db r g start end_ ↔
  ∃ (i : nat) entry user,
    Redis.zrevrange (get_leaderboard_key g) start end_ r !! i = Some entry ∧
    User_objects db !! entry.1 = Some user ∧
    row = row_of (Game.score_type game) (start + 1 + Z.of_nat i) entry user.
Proof.
  intros Hg. unfold get_leaderboard. rewrite Hg.
  set (ranked := Redis.zrevrange _ _ _ _).
  transitivity
    (row ∈ leaderboard_rows (user_dict_of db ranked.*1) (Game.score_type game)
             (start + 1) ranked).
  { by destruct ranked. }
  rewrite leaderboard_rows_elem.
  split; intros (i & entry & user & Hi & Hu & ->);
    exists i, entry, user; (split; [done|]); (split; [|done]).
  - by rewrite <-(user_dict_of_lookup db ranked i).
  - by rewrite (user_dict_of_lookup db ranked i).
Qed.

Lemma get_leaderboard_empty_range db r g start end_ :
  0 ≤ end_ < start ∨ Redis.zcard (get_leaderboard_key g) r ≤ start →
  get_leaderboard db r g start end_ = [].
Proof.
  intros H. unfold get_leaderboard. case_match; [|done].
  unfold Redis.zrevrange. rewrite range_by_rank_empty; [done|].
  by rewrite descending_length.
Qed.

Lemma get_user_rank_unranked db r g u :
  Redis.zscore (get_leaderboard_key g) u r = None →
  get_user_rank db r g u = None.
Proof.
  intros Hs. unfold get_user_rank. case_match; [|done].
  destruct (Redis.zrevrank _ _ _) as [rank|] eqn:Hr; [|done].
  assert (is_Some (Redis.zscore (get_leaderboard_key g) u r)) as [? Hs'].
  { apply zrevrank_zscore. by eexists. }
  by rewrite Hs in Hs'.
Qed.

(** In a highest-wins game the row of rank 1 carries a raw score no higher
    than the raw score of any ranked user: the page is read highest key
    first and the key is the negated score. *)
Lemma highest_wins_rank_1_is_lowest_score db r g stop game row member key :
  Game_objects db !! g = Some game →
  Game.score_type game = "highest" →
  row ∈ get_leaderboard db r g 0 stop → rank row = 1 →
  Redis.zscore (get_leaderboard_key g) member r = Some key →
  score row ≤ _convert_score_from_redis key "highest".
Proof.
  intros Hg Hst Hrow Hrank Hkey.
  apply (get_leaderboard_elem db r g 0 stop game row Hg) in Hrow
    as (i & entry & user & Hi & _ & ->).
  simpl in Hrank. assert (i = 0%nat) as -> by lia.
  rewrite <-head_lookup in Hi.
  pose proof (zrevrange_head_max _ _ _ _ _ _ Hi Hkey) as Hle.
  rewrite Hst. unfold row_of, _convert_score_from_redis. simpl. lia.
Qed.

End pages.

(** ** Score submission *)

Section submission.

#[local] Instance score_desc_total : Total score_desc.
Proof. intros a b. unfold score_desc. lia. Qed.

#[local] Instance score_desc_trans : Transitive score_desc.
Proof. intros a b c. unfold score_desc. lia. Qed.

#[local] Instance score_asc_total : Total score_asc.
Proof. intros a b. unfold score_asc. lia. Qed.

#[local] Instance score_asc_trans : Transitive score_asc.
Proof. intros a b c. unfold score_asc. lia. Qed.

(** The first row of an ordered query comes before every row of the table
    it was taken from. *)
Lemma head_merge_sort (R : relation Score.t)
    `{!RelDecision R, !Total R, !Transitive R} (l : list Score.t) (x : Score.t) :
  x ∈ l → ∃ b, head (merge_sort R l) = Some b ∧ (b = x ∨ R b x).
Proof.
  intros Hx. pose proof (StronglySorted_merge_sort R l) as Hs.
  rewrite <-(merge_sort_Permutation R l) in Hx.
  destruct (merge_sort R l) as [|b l']; [by apply elem_of_nil in Hx|].
  exists b. split; [done|].
  apply StronglySorted_cons in Hs as [Hall _].
  apply elem_of_cons in Hx as [->|Hx]; [by left|right].
  rewrite Forall_forall in Hall. by apply Hall.
Qed.

(** The best score read back after [Score.objects.create] is at least as
    good as the row just created. *)
Lemma best_after_create db r u g x game :
  Game_objects db !! g = Some game →
  ∃ b, Score_get_user_best_score (Score_objects_create db r u g x).1 u g = Some b ∧
       if String.eqb (Game.score_type game) "highest"
       then x ≤ Score.score b else Score.score b ≤ x.
Proof.
  intros Hg. unfold Score_get_user_best_score, Score_objects_create. simpl.
  rewrite Hg, filter_cons, decide_True by done.
  set (l := Score.mk u g x :: _).
  assert (Score.mk u g x ∈ l) as Hin by apply list_elem_of_here.
  destruct (String.eqb (Game.score_type game) "highest").
  - destruct (head_merge_sort score_desc l _ Hin) as (b & Hb & Hle).
    exists b. split; [done|]. destruct Hle as [->|Hle]; [done|apply Hle].
  - destruct (head_merge_sort score_asc l _ Hin) as (b & Hb & Hle).
    exists b. split; [done|]. destruct Hle as [->|Hle]; [done|apply Hle].
Qed.

(** Whatever is submitted, the response never carries a true
    [is_personal_best]: the comparison is made against a best score that
    already includes the row just written. *)
Lemma post_never_personal_best db r u g x s b rank_info :
  (post db r u g x).2 = Http201 s b rank_info → b = false.
Proof.
  unfold post. destruct (negb _); [done|].
  destruct (Game_objects db !! g) as [game|] eqn:Hg; [|done].
  destruct (best_after_create db r u g x game Hg) as (best & Hbest & Hle).
  destruct (Score_objects_create db r u g x) as [db' r'] eqn:Hc.
  simpl in *. rewrite Hbest. intros [= _ <- _].
  destruct (String.eqb (Game.score_type game) "highest");
    apply bool_decide_eq_false; lia.
Qed.

End submission.

(** ** What a write leaves in the global index and in other games *)

Section global_index.
Implicit Types (r : gmap string (gmap Z Z)).

(** Every submission to an existing game sets the user's global entry to the
    score just submitted, whatever was there. *)
Lemma create_sets_global_entry db r u g x game :
  Game_objects db !! g = Some game →
  Redis.zscore get_global_leaderboard_key u (Score_objects_create db r u g x).2
  = Some x.
Proof.
  intros Hg. unfold Score_objects_create, Score_update_redis_leaderboard.
  simpl. rewrite Hg. unfold Redis.zscore.
  by rewrite update_user_score_global_key, lookup_insert_eq.
Qed.

(** A rebuild sets the global entry of a user who has a record in the game
    to that user's best raw score in the game. *)
Lemma rebuild_sets_global_entry db r g game u best :
  Game_objects db !! g = Some game →
  best_with (pick_of (Game.score_type game)) (raws_of u (scores_of_game db g))
    = Some best →
  Redis.zscore get_global_leaderboard_key u (rebuild_leaderboard db r g)
  = Some best.
Proof.
  intros Hg Hbest.
  rewrite (rebuild_leaderboard_closed_form db r g game Hg).
  unfold Redis.zscore. rewrite rebuilt_global_key.
  apply lookup_union_Some_l. by rewrite rebuild_user_scores_lookup.
Qed.

Lemma rebuild_leaderboard_missing_game db r g :
  Game_objects db !! g = None → rebuild_leaderboard db r g = r.
Proof. intros Hg. unfold rebuild_leaderboard. by rewrite Hg. Qed.

(** A rebuild leaves the index of every other game as it was. *)
Lemma rebuild_keeps_other_games db r g g' :
  g' ≠ g →
  rebuild_leaderboard db r g !! get_leaderboard_key g'
  = r !! get_leaderboard_key g'.
Proof.
  intros Hne. destruct (Game_objects db !! g) as [game|] eqn:Hg.
  - rewrite (rebuild_leaderboard_closed_form db r g game Hg).
    apply rebuilt_lookup_other; [|apply game_key_ne_global].
    intros Heq. by apply game_key_inj in Heq.
  - by rewrite rebuild_leaderboard_missing_game.
Qed.

End global_index.

(** ** Doubles

    The service handles scores as Python floats.  On IEEE 754 values
    negation only flips the sign, so that negating twice gives back the
    very same value; this is the one arithmetic operation the conversions
    apply. *)

Section doubles.

Lemma SFopp_involutive (x : spec_float) : SFopp (SFopp x) = x.
Proof. destruct x as [s|s| |s m e]; simpl; by rewrite ?negb_involutive. Qed.

End doubles.

(** * The claims *)

(** C1, evaluated on the code.  Scenario A: in a highest-wins game U1
    submits 100, U2 250 and U3 90.  [get_leaderboard(G, 0, 2)] lists the
    three users worst first: U3 (90) at rank 1, U1 (100) at rank 2 and
    U2 (250), the maximum raw score, at rank 3.  The key stored for a
    highest-wins game is the negated score and the page is read with
    ZREVRANGE, highest key first. *)
Theorem C1_scenario_A_lists_worst_first :
  Scenario.summary
    (get_leaderboard Scenario.stA.1 Scenario.stA.2 Scenario.G 0 2)
  = [(1, Scenario.U3, 9000); (2, Scenario.U1, 10000); (3, Scenario.U2, 25000)].
Proof. by vm_compute. Qed.

(** C2, evaluated on the code.  Scenario D: U1 submits 10 to a highest-wins
    game and then 5 to a time game.  The global leaderboard and
    [get_user_global_rank] both show 5, the last raw score written, while
    the sum of the raw scores U1 submitted is 15: the global entry is set
    with ZADD, which overwrites. *)
Theorem C2_global_score_is_last_submission :
  total_score <$> get_global_leaderboard Scenario.stD.1 Scenario.stD.2 0 99 = [500]
  ∧ gr_total_score <$> get_user_global_rank Scenario.stD.2 Scenario.U1 = Some 500
  ∧ sum_of_raw_scores Scenario.stD.1 Scenario.U1 = 1500.
Proof. by vm_compute. Qed.

(** C3, evaluated on the code.  The first score a user ever submits to a
    game (no prior record, so a personal best) is answered with
    [is_personal_best = False]: the best record is read after the new row
    was written. *)
Theorem C3_first_submission_is_not_flagged :
  Score_get_user_best_score (Scenario.db0 "highest") Scenario.U1 Scenario.G = None
  ∧ (post (Scenario.db0 "highest") ∅ Scenario.U1 Scenario.G 1000).2
    = Http201 1000 false (Some (1, 1)).
Proof. by vm_compute. Qed.

(** C4, evaluated on the code.  Scenario B: in a time game U1 submits 12.50
    and U2 9.75.  [get_user_rank(G, U1)] reports rank 1 for U1, the slower
    time, and the neighbourhood lists U1 before U2. *)
Theorem C4_scenario_B_slower_time_ranks_first :
  user_rank <$> get_user_rank Scenario.stB.1 Scenario.stB.2 Scenario.G Scenario.U1
  = Some 1
  ∧ (Scenario.summary ∘ surrounding_players)
      <$> get_user_rank Scenario.stB.1 Scenario.stB.2 Scenario.G Scenario.U1
    = Some [(1, Scenario.U1, 1250); (2, Scenario.U2, 975)].
Proof. by vm_compute. Qed.

(** C5 as stated fails: [G] exists and, after U1 submitted 10 and then 5, the
    global entry of U1 is 5; rebuilding [G] writes U1's best score in the
    game, 10, over it. *)
Lemma C5_rebuild_changes_global_entry :
  is_Some (Game_objects Scenario.stC.1 !! Scenario.G)
  ∧ Redis.zscore get_global_leaderboard_key Scenario.U1 Scenario.stC.2 = Some 500
  ∧ Redis.zscore get_global_leaderboard_key Scenario.U1
      (rebuild_leaderboard Scenario.stC.1 Scenario.stC.2 Scenario.G)
    = Some 1000
  ∧ Redis.zscore get_global_leaderboard_key Scenario.U1
      (rebuild_leaderboard Scenario.stC.1 Scenario.stC.2 Scenario.G)
    ≠ Redis.zscore get_global_leaderboard_key Scenario.U1 Scenario.stC.2.
Proof.
  split; [by eexists|]. split; [by vm_compute|]. split; [by vm_compute|].
  by vm_compute.
Qed.

(** C5, amended.  For every prior state and every game, [rebuild_leaderboard]
    leaves the global-keyspace entry, present or absent, of every user who has
    no score record in that game the same as before. *)
Theorem C5_rebuild_keeps_global_entries_of_other_users
    (db : Database) (r : gmap string (gmap Z Z)) (game_id u : Z) :
  u ∉ (Score.user <$> scores_of_game db game_id) →
  Redis.zscore get_global_leaderboard_key u (rebuild_leaderboard db r game_id)
  = Redis.zscore get_global_leaderboard_key u r.
Proof.
  intros Hu. destruct (Game_objects db !! game_id) as [game|] eqn:Hg.
  - rewrite (rebuild_leaderboard_closed_form db r game_id game Hg).
    unfold Redis.zscore. rewrite rebuilt_global_key.
    apply lookup_union_r, rebuild_user_scores_absent.
    intros s Hs Hgame Heq. apply Hu.
    apply list_elem_of_fmap. exists s. split; [done|].
    unfold scores_of_game. by apply list_elem_of_filter.
  - unfold rebuild_leaderboard. by rewrite Hg.
Qed.

Lemma C5_rebuild_keeps_global_entries_witness :
  (Scenario.U2 ∉ (Score.user <$> scores_of_game Scenario.stE.1 Scenario.G))
  ∧ Redis.zscore get_global_leaderboard_key Scenario.U2
      (rebuild_leaderboard Scenario.stE.1 Scenario.stE.2 Scenario.G)
    = Redis.zscore get_global_leaderboard_key Scenario.U2 Scenario.stE.2.
Proof.
  assert (Scenario.U2 ∉ (Score.user <$> scores_of_game Scenario.stE.1 Scenario.G))
    as H by (apply (bool_decide_unpack _); vm_compute; exact I).
  split; [exact H|].
  exact (C5_rebuild_keeps_global_entries_of_other_users _ _ _ _ H).
Defined.

(** C6.  For every existing game, whatever the live updates left in Redis,
    the per-game index after [rebuild_leaderboard] is the index obtained by
    replaying the game's score log, oldest record first, with keep-best
    semantics: same members, same key for each.  In scenario C (U1 submits
    10, then 5, to a highest-wins game) the live index shows 5 for U1 and
    the rebuilt index shows 10. *)
Theorem C6_rebuild_is_keep_best_replay :
  (∀ (db : Database) (r : gmap string (gmap Z Z)) (game_id : Z) game p,
     Game_objects db !! game_id = Some game →
     policy_of (Game.score_type game) = Some p →
     Redis.zset_at (get_leaderboard_key game_id) (rebuild_leaderboard db r game_id)
     = replay_keep_best p (log_of_game db game_id))
  ∧ (λ k, _convert_score_from_redis k "highest")
      <$> Redis.zscore (get_leaderboard_key Scenario.G) Scenario.U1 Scenario.stC.2
    = Some 500
  ∧ (λ k, _convert_score_from_redis k "highest")
      <$> Redis.zscore (get_leaderboard_key Scenario.G) Scenario.U1
            (rebuild_leaderboard Scenario.stC.1 Scenario.stC.2 Scenario.G)
    = Some 1000.
Proof.
  split; [|by vm_compute].
  intros db r g game p Hg Hp.
  rewrite (rebuild_leaderboard_closed_form db r g game Hg), rebuilt_game_key.
  apply map_eq. intros u.
  rewrite lookup_fmap, rebuild_user_scores_lookup.
  rewrite (replay_keep_best_lookup (Game.score_type game)) by done.
  unfold log_of_game. by rewrite raws_of_reverse, best_with_reverse.
Qed.

Lemma C6_rebuild_is_keep_best_replay_witness :
  Game_objects Scenario.stC.1 !! Scenario.G = Some (Game.mk "game" true "highest")
  ∧ policy_of "highest" = Some HighestWins
  ∧ Redis.zset_at (get_leaderboard_key Scenario.G)
      (rebuild_leaderboard Scenario.stC.1 Scenario.stC.2 Scenario.G)
    = replay_keep_best HighestWins (log_of_game Scenario.stC.1 Scenario.G).
Proof.
  assert (Game_objects Scenario.stC.1 !! Scenario.G
          = Some (Game.mk "game" true "highest")) as H1 by (vm_compute; reflexivity).
  assert (policy_of "highest" = Some HighestWins) as H2 by reflexivity.
  split; [exact H1|]. split; [exact H2|].
  exact (proj1 C6_rebuild_is_keep_best_replay _ Scenario.stC.2 _ _ _ H1 H2).
Defined.

(** C7.  For every score type, and so for highest, lowest and time, and for
    every score in hundredths, and so for every non-negative decimal with at
    most two places, converting the score to its Redis sort key and back
    gives exactly the score. *)
Theorem C7_convert_round_trip (score_type : string) (x : Z) :
  _convert_score_from_redis (_convert_score_for_redis x score_type) score_type = x.
Proof.
  unfold _convert_score_from_redis, _convert_score_for_redis.
  destruct (String.eqb score_type "highest"); lia.
Qed.

(** C8.  For every game and every state of the score log and of Redis,
    running [rebuild_leaderboard] a second time, with no submission in
    between, leaves exactly the state the first run left. *)
Theorem C8_rebuild_idempotent
    (db : Database) (r : gmap string (gmap Z Z)) (game_id : Z) :
  rebuild_leaderboard db (rebuild_leaderboard db r game_id) game_id
  = rebuild_leaderboard db r game_id.
Proof.
  destruct (Game_objects db !! game_id) as [game|] eqn:Hg.
  - rewrite !(rebuild_leaderboard_closed_form db _ game_id game Hg).
    set (st := Game.score_type game).
    set (m := rebuild_user_scores db game_id st).
    apply map_eq. intros key.
    destruct (decide (key = get_leaderboard_key game_id)) as [->|Hk1].
    { by rewrite !rebuilt_lookup_game. }
    destruct (decide (key = get_global_leaderboard_key)) as [->|Hk2].
    + rewrite rebuilt_lookup_global, rebuilt_global_key.
      case_decide as Hm.
      * by rewrite rebuilt_lookup_global, decide_True.
      * rewrite rebuilt_lookup_global, decide_False by done.
        by rewrite (assoc_L (∪)), (idemp_L (∪)).
    + by rewrite !rebuilt_lookup_other.
  - unfold rebuild_leaderboard. by rewrite Hg.
Qed.

(** C9 as stated fails for a negative end: with start 0 and end -1, so that
    start > end, Redis counts the end from the tail of the index and
    [get_leaderboard] returns the whole leaderboard of scenario A. *)
Lemma C9_negative_end_is_not_empty :
  0 > -1
  ∧ get_leaderboard Scenario.stA.1 Scenario.stA.2 Scenario.G 0 (-1) ≠ []
  ∧ Scenario.summary
      (get_leaderboard Scenario.stA.1 Scenario.stA.2 Scenario.G 0 (-1))
    = [(1, Scenario.U3, 9000); (2, Scenario.U1, 10000); (3, Scenario.U2, 25000)].
Proof. split; [done|]. split; by vm_compute. Qed.

(** C9, amended.  Window queries degrade to empty results: for every game,
    [get_leaderboard] with start and end in the signed 64-bit range Redis
    accepts as indexes, and with a non-negative end below start or with
    start at or beyond the cardinality of the index, returns the empty list;
    for a game that does not exist [get_leaderboard] returns the empty list
    and [get_user_rank] returns [None] (Redis is not asked); and for a user
    with no entry in the index [get_user_rank] returns [None]. *)
Theorem C9_degenerate_queries_are_empty
    (db : Database) (r : gmap string (gmap Z Z)) (game_id u start end_ : Z) :
  (Redis.int64 start → Redis.int64 end_ →
   0 ≤ end_ < start ∨ Redis.zcard (get_leaderboard_key game_id) r ≤ start →
   get_leaderboard db r game_id start end_ = [])
  ∧ (Game_objects db !! game_id = None →
     get_leaderboard db r game_id start end_ = []
     ∧ get_user_rank db r game_id u = None)
  ∧ (Redis.zscore (get_leaderboard_key game_id) u r = None →
     get_user_rank db r game_id u = None).
Proof.
  split; [|split].
  - intros _ _. apply get_leaderboard_empty_range.
  - intros Hg. unfold get_leaderboard, get_user_rank. by rewrite Hg.
  - apply get_user_rank_unranked.
Qed.

Lemma C9_degenerate_queries_witness :
  Redis.int64 2 ∧ Redis.int64 1 ∧ Redis.int64 3 ∧ Redis.int64 9
  ∧ (0 ≤ 1 < 2 ∨ Redis.zcard (get_leaderboard_key Scenario.G) Scenario.stA.2 ≤ 2)
  ∧ get_leaderboard Scenario.stA.1 Scenario.stA.2 Scenario.G 2 1 = []
  ∧ Redis.zcard (get_leaderboard_key Scenario.G) Scenario.stA.2 ≤ 3
  ∧ get_leaderboard Scenario.stA.1 Scenario.stA.2 Scenario.G 3 9 = []
  ∧ Game_objects Scenario.stA.1 !! 99 = None
  ∧ get_user_rank Scenario.stA.1 Scenario.stA.2 99 Scenario.U1 = None
  ∧ Redis.zscore (get_leaderboard_key Scenario.G) 4 Scenario.stA.2 = None
  ∧ get_user_rank Scenario.stA.1 Scenario.stA.2 Scenario.G 4 = None.
Proof.
  assert (Redis.int64 2) as I2 by (vm_compute; split; [discriminate|reflexivity]).
  assert (Redis.int64 1) as I1 by (vm_compute; split; [discriminate|reflexivity]).
  assert (Redis.int64 3) as I3 by (vm_compute; split; [discriminate|reflexivity]).
  assert (Redis.int64 9) as I9 by (vm_compute; split; [discriminate|reflexivity]).
  assert (0 ≤ 1 < 2 ∨ Redis.zcard (get_leaderboard_key Scenario.G) Scenario.stA.2 ≤ 2)
    as H1 by (left; lia).
  assert (Redis.zcard (get_leaderboard_key Scenario.G) Scenario.stA.2 ≤ 3)
    as H2 by (vm_compute; discriminate).
  assert (Game_objects Scenario.stA.1 !! 99 = None)
    as H3 by (vm_compute; reflexivity).
  assert (Redis.zscore (get_leaderboard_key Scenario.G) 4 Scenario.stA.2 = None)
    as H4 by (vm_compute; reflexivity).
  split; [exact I2|]. split; [exact I1|]. split; [exact I3|]. split; [exact I9|].
  split; [exact H1|]. split.
  { exact (proj1 (C9_degenerate_queries_are_empty
                    Scenario.stA.1 Scenario.stA.2 Scenario.G 0 2 1) I2 I1 H1). }
  split; [exact H2|]. split.
  { exact (proj1 (C9_degenerate_queries_are_empty
                    Scenario.stA.1 Scenario.stA.2 Scenario.G 0 3 9)
             I3 I9 (or_intror H2)). }
  split; [exact H3|]. split.
  { exact (proj2 (proj1 (proj2 (C9_degenerate_queries_are_empty
                    Scenario.stA.1 Scenario.stA.2 99 Scenario.U1 0 0)) H3)). }
  split; [exact H4|].
  exact (proj2 (proj2 (C9_degenerate_queries_are_empty
                 Scenario.stA.1 Scenario.stA.2 Scenario.G 4 0 0)) H4).
Defined.

(** C10.  For every existing game, the rows of the page returned by
    [get_leaderboard] are exactly the rows built from the entries of the raw
    ranked range whose user id resolves in the user table, and the rank of
    the row built from the entry at 0-based position [i] of the raw range is
    [start + 1 + i]: the rank is counted before unresolved users are left
    out.  In scenario A with the account of U1 deleted (U1 still ranked
    second in Redis), the page for ranks 0 to 2 carries U3 with rank 1 and
    U2 with rank 3: the ranks on a page need not be consecutive. *)
Theorem C10_rank_is_position_in_raw_range :
  (∀ (db : Database) (r : gmap string (gmap Z Z)) (game_id start end_ : Z) game row,
     Game_objects db !! game_id = Some game →
     row ∈ get_leaderboard db r game_id start end_ ↔
     ∃ (i : nat) entry user,
       Redis.zrevrange (get_leaderboard_key game_id) start end_ r !! i = Some entry
       ∧ User_objects db !! entry.1 = Some user
       ∧ row = row_of (Game.score_type game) (start + 1 + Z.of_nat i) entry user)
  ∧ Scenario.summary
      (get_leaderboard Scenario.dbA_without_U1 Scenario.stA.2 Scenario.G 0 2)
    = [(1, Scenario.U3, 9000); (3, Scenario.U2, 25000)].
Proof.
  split; [|by vm_compute].
  intros db r g start end_ game row Hg. by apply get_leaderboard_elem.
Qed.

Lemma C10_rank_is_position_witness :
  Game_objects Scenario.dbA_without_U1 !! Scenario.G
    = Some (Game.mk "game" true "highest")
  ∧ (mkLeaderboardEntry 3 Scenario.U2 "u2@example.com" "Bob" 25000
       ∈ get_leaderboard Scenario.dbA_without_U1 Scenario.stA.2 Scenario.G 0 2
     ↔ ∃ (i : nat) entry user,
         Redis.zrevrange (get_leaderboard_key Scenario.G) 0 2 Scenario.stA.2 !! i
           = Some entry
         ∧ User_objects Scenario.dbA_without_U1 !! entry.1 = Some user
         ∧ mkLeaderboardEntry 3 Scenario.U2 "u2@example.com" "Bob" 25000
           = row_of "highest" (0 + 1 + Z.of_nat i) entry user).
Proof.
  assert (Game_objects Scenario.dbA_without_U1 !! Scenario.G
          = Some (Game.mk "game" true "highest")) as H by (vm_compute; reflexivity).
  split; [exact H|].
  exact (proj1 C10_rank_is_position_in_raw_range
           Scenario.dbA_without_U1 Scenario.stA.2 Scenario.G 0 2 _ _ H).
Defined.

(** * Further properties *)

(** ** Ranked ranges *)

Section ranges.
Implicit Types (r : gmap string (gmap Z Z)) (z : gmap Z Z) (key : string).
Implicit Types (l : list (Z * Z)).

Lemma descending_NoDup z : NoDup (Redis.descending z).*1.
Proof. rewrite descending_perm. apply NoDup_fst_map_to_list. Qed.

Lemma position_lookup member l (i : nat) s :
  NoDup l.*1 → l !! i = Some (member, s) →
  Redis.position member l = Some (Z.of_nat i).
Proof.
  revert i. induction l as [|e l IH]; intros i Hnd Hi; [done|].
  rewrite fmap_cons in Hnd. apply NoDup_cons in Hnd as [Hnotin Hnd].
  simpl. destruct i as [|i]; simpl in Hi.
  - injection Hi as ->. by rewrite decide_True.
  - rewrite decide_False.
    + rewrite (IH i Hnd Hi). simpl. f_equal. lia.
    + intros Heq. apply Hnotin. rewrite Heq.
      apply list_elem_of_fmap. exists (member, s). split; [done|].
      by apply list_elem_of_lookup_2 in Hi.
Qed.

Lemma position_Some member l k :
  Redis.position member l = Some k →
  0 ≤ k < Z.of_nat (length l) ∧ ∃ s, l !! Z.to_nat k = Some (member, s).
Proof.
  revert k. induction l as [|e l IH]; intros k; simpl; [done|].
  case_decide as He.
  - intros [= <-]. split; [lia|]. exists e.2. destruct e. by simplify_eq/=.
  - destruct (Redis.position member l) as [k'|]; [|done].
    intros [= <-]. destruct (IH k' eq_refl) as [Hk (s & Hs)].
    split; [lia|]. exists s.
    replace (Z.to_nat (k' + 1)) with (S (Z.to_nat k')) by lia. done.
Qed.

(** Every ranked range is a window [take n (drop k _)] of the sequence. *)
Lemma range_by_rank_window {A} (l : list A) (start stop : Z) :
  ∃ k n, Redis.range_by_rank l start stop = take n (drop k l)
         ∧ (0 ≤ start → k = Z.to_nat start)
         ∧ (0 ≤ start → 0 ≤ stop → n = Z.to_nat (stop - start + 1)).
Proof.
  unfold Redis.range_by_rank. cbv zeta.
  set (llen := Z.of_nat (length l)).
  set (start1 := if start <? 0 then llen + start else start).
  set (stop1 := if stop <? 0 then llen + stop else stop).
  set (start2 := if start1 <? 0 then 0 else start1).
  assert (0 ≤ start → start2 = start) as Hstart.
  { intros ?. subst start2 start1.
    destruct (Z.ltb_spec start 0); [lia|]. destruct (Z.ltb_spec start 0); lia. }
  assert (0 ≤ stop → stop1 = stop) as Hstop.
  { intros ?. subst stop1. destruct (Z.ltb_spec stop 0); lia. }
  destruct (Z.ltb_spec stop1 start2) as [Hlt|Hle]; simpl.
  { exists (Z.to_nat start2), (Z.to_nat (stop1 - start2 + 1)).
    split; [|split].
    - by replace (Z.to_nat (stop1 - start2 + 1)) with 0%nat by lia.
    - intros ?. by rewrite Hstart.
    - intros ??. by rewrite Hstart, Hstop. }
  destruct (Z.leb_spec llen start2) as [Hge|Hlt]; simpl.
  { exists (Z.to_nat start2), (Z.to_nat (stop1 - start2 + 1)).
    split; [|split].
    - rewrite drop_ge by (subst llen; lia). by rewrite take_nil.
    - intros ?. by rewrite Hstart.
    - intros ??. by rewrite Hstart, Hstop. }
  exists (Z.to_nat start2), (Z.to_nat (stop1 - start2 + 1)).
  split; [|split].
  - destruct (Z.leb_spec llen stop1) as [Hbig|Hsmall]; [|done].
    rewrite !take_ge; [done|rewrite length_drop; subst llen; lia..].
  - intros ?. by rewrite Hstart.
  - intros ??. by rewrite Hstart, Hstop.
Qed.

Lemma range_by_rank_lookup {A} (l : list A) (start stop : Z) (i : nat) e :
  0 ≤ start →
  Redis.range_by_rank l start stop !! i = Some e →
  l !! (Z.to_nat start + i)%nat = Some e.
Proof.
  intros Hs. destruct (range_by_rank_window l start stop) as (k & n & -> & Hk & _).
  rewrite (Hk Hs). intros [Hi _]%lookup_take_Some. by rewrite lookup_drop in Hi.
Qed.

Lemma range_by_rank_length {A} (l : list A) (start stop : Z) :
  0 ≤ start → 0 ≤ stop →
  Z.of_nat (length (Redis.range_by_rank l start stop)) ≤ Z.max 0 (stop - start + 1).
Proof.
  intros Hs He.
  destruct (range_by_rank_window l start stop) as (k & n & -> & _ & Hn).
  rewrite (Hn Hs He), length_take. lia.
Qed.

(** With start 0 and stop -1 the range is the whole sequence. *)
Lemma range_by_rank_all {A} (l : list A) : Redis.range_by_rank l 0 (-1) = l.
Proof.
  unfold Redis.range_by_rank. cbv zeta. simpl.
  set (llen := Z.of_nat (length l)).
  destruct l as [|a l]; [done|].
  assert (0 < llen) by (subst llen; simpl; lia).
  destruct (Z.ltb_spec (llen + -1) 0); [lia|].
  destruct (Z.leb_spec llen 0); [lia|]. simpl.
  destruct (Z.leb_spec llen (llen + -1)); [lia|].
  rewrite take_ge; [done|]. subst llen. simpl length. lia.
Qed.

Lemma StronglySorted_window {A} (R : relation A) (l : list A) (k n : nat) :
  StronglySorted R l → StronglySorted R (take n (drop k l)).
Proof.
  intros Hl. rewrite <-(take_drop k l) in Hl.
  apply StronglySorted_app_1_r in Hl.
  rewrite <-(take_drop n (drop k l)) in Hl.
  by apply StronglySorted_app_1_l in Hl.
Qed.

Lemma StronglySorted_lookup {A} (R : relation A) (l : list A) (i j : nat) a b :
  StronglySorted R l → (i < j)%nat → l !! i = Some a → l !! j = Some b → R a b.
Proof.
  intros Hl. revert i j. induction Hl as [|x l Hl IH Hall]; intros i j Hij Hi Hj.
  - done.
  - destruct j as [|j]; [lia|]. simpl in Hj. destruct i as [|i]; simpl in Hi.
    + injection Hi as ->. rewrite Forall_forall in Hall.
      apply Hall. by apply list_elem_of_lookup_2 in Hj.
    + apply (IH i j); [lia|done..].
Qed.

Lemma StronglySorted_strengthen {A} (R1 R2 : relation A) (l : list A) :
  (∀ a b, a ∈ l → b ∈ l → R1 a b → R2 a b) →
  StronglySorted R1 l → StronglySorted R2 l.
Proof.
  intros HR Hl. induction Hl as [|x l Hl IH Hall]; constructor.
  - apply IH. intros a b Ha Hb. apply HR; by apply list_elem_of_further.
  - rewrite Forall_forall in Hall. apply Forall_forall. intros b Hb.
    apply HR; [apply list_elem_of_here|by apply list_elem_of_further|by apply Hall].
Qed.

Lemma StronglySorted_ne_NoDup {A B} `{!EqDecision B} (f : A → B) (l : list A) :
  StronglySorted (λ a b, f a ≠ f b) l → NoDup (f <$> l).
Proof.
  induction 1 as [|x l Hl IH Hall]; simpl; constructor; [|done].
  rewrite Forall_forall in Hall.
  intros (y & Hy & Hin)%list_elem_of_fmap. by apply (Hall y Hin).
Qed.

(** ZREVRANGE never lists a member twice and lists scores highest first. *)
Lemma zrevrange_sorted key start stop r :
  StronglySorted (λ a b : Z * Z, b.2 ≤ a.2) (Redis.zrevrange key start stop r).
Proof.
  unfold Redis.zrevrange.
  destruct (range_by_rank_window (Redis.descending (Redis.zset_at key r)) start stop)
    as (k & n & -> & _).
  apply StronglySorted_window, descending_sorted.
Qed.

Lemma zrevrange_lookup_member key start stop r (i j : nat) a b :
  Redis.zrevrange key start stop r !! i = Some a →
  Redis.zrevrange key start stop r !! j = Some b →
  a.1 = b.1 → i = j.
Proof.
  unfold Redis.zrevrange.
  pose proof (descending_NoDup (Redis.zset_at key r)) as Hnd.
  destruct (range_by_rank_window (Redis.descending (Redis.zset_at key r)) start stop)
    as (k & n & -> & _).
  intros [Hi _]%lookup_take_Some [Hj _]%lookup_take_Some Heq.
  rewrite lookup_drop in Hi, Hj.
  assert ((Redis.descending (Redis.zset_at key r)).*1 !! (k + i)%nat = Some a.1)
    as Hi' by (by rewrite list_lookup_fmap, Hi).
  assert ((Redis.descending (Redis.zset_at key r)).*1 !! (k + j)%nat = Some a.1)
    as Hj' by (by rewrite list_lookup_fmap, Hj, Heq).
  pose proof (NoDup_lookup _ _ _ _ Hnd Hi' Hj'). lia.
Qed.

Lemma zrevrange_elem key start stop r (i : nat) entry :
  Redis.zrevrange key start stop r !! i = Some entry →
  Redis.zscore key entry.1 r = Some entry.2.
Proof.
  unfold Redis.zrevrange, Redis.zscore.
  destruct (range_by_rank_window (Redis.descending (Redis.zset_at key r)) start stop)
    as (k & n & -> & _).
  intros [Hi _]%lookup_take_Some. rewrite lookup_drop in Hi.
  apply list_elem_of_lookup_2 in Hi. destruct entry. by apply elem_of_descending.
Qed.

End ranges.

(** ** The shape of a leaderboard page *)

Section page_shape.
Implicit Types (r : gmap string (gmap Z Z)) (ranked : list (Z * Z)).
Implicit Types (user_dict : gmap Z User.t) (db : Database).

Lemma leaderboard_rows_length user_dict st rank0 ranked :
  (length (leaderboard_rows user_dict st rank0 ranked) ≤ length ranked)%nat.
Proof.
  revert rank0. induction ranked as [|[uid rs] ranked IH]; intros rank0; simpl;
    [done|].
  destruct (user_dict !! uid); simpl; specialize (IH (rank0 + 1)); lia.
Qed.

Lemma leaderboard_rows_ranks user_dict st rank0 ranked :
  Forall (λ row, rank0 ≤ rank row) (leaderboard_rows user_dict st rank0 ranked)
  ∧ StronglySorted (λ a b, rank a < rank b)
      (leaderboard_rows user_dict st rank0 ranked).
Proof.
  revert rank0. induction ranked as [|[uid rs] ranked IH]; intros rank0; simpl.
  { split; constructor. }
  destruct (IH (rank0 + 1)) as [Hge Hsorted].
  assert (Forall (λ row, rank0 < rank row)
            (leaderboard_rows user_dict st (rank0 + 1) ranked)) as Hgt.
  { eapply Forall_impl; [exact Hge|]. simpl. intros; lia. }
  destruct (user_dict !! uid).
  - split.
    + constructor; [simpl; lia|]. eapply Forall_impl; [exact Hgt|].
      simpl. intros; lia.
    + by constructor.
  - split; [|done]. eapply Forall_impl; [exact Hgt|]. simpl. intros; lia.
Qed.

(** The rows of the global page are the rows of a game page whose stored
    key is shown as it is. *)
Lemma global_rows_as_rows user_dict rank0 ranked :
  global_rows user_dict rank0 ranked
  = (λ row, mkGlobalLeaderboardEntry (rank row) (user_id row) (username row)
              (name row) (score row))
      <$> leaderboard_rows user_dict "" rank0 ranked.
Proof.
  revert rank0. induction ranked as [|[uid rs] ranked IH]; intros rank0; simpl;
    [done|].
  destruct (user_dict !! uid); simpl; by rewrite IH.
Qed.

Lemma get_leaderboard_missing_game db r g start end_ :
  Game_objects db !! g = None → get_leaderboard db r g start end_ = [].
Proof. intros Hg. unfold get_leaderboard. by rewrite Hg. Qed.

Lemma get_leaderboard_as_rows db r g start end_ game :
  Game_objects db !! g = Some game →
  get_leaderboard db r g start end_
  = leaderboard_rows
      (user_dict_of db (Redis.zrevrange (get_leaderboard_key g) start end_ r).*1)
      (Game.score_type game) (start + 1)
      (Redis.zrevrange (get_leaderboard_key g) start end_ r).
Proof.
  intros Hg. unfold get_leaderboard. rewrite Hg.
  by destruct (Redis.zrevrange _ _ _ _).
Qed.

Lemma get_leaderboard_ranks_sorted db r g start end_ :
  StronglySorted (λ a b, rank a < rank b) (get_leaderboard db r g start end_).
Proof.
  destruct (Game_objects db !! g) as [game|] eqn:Hg.
  - rewrite (get_leaderboard_as_rows db r g start end_ game Hg).
    apply leaderboard_rows_ranks.
  - rewrite get_leaderboard_missing_game by done. constructor.
Qed.

(** Two rows of one page, the first with the lower rank, come from two
    entries of the raw range in that order. *)
Lemma get_leaderboard_two_rows db r g start end_ game a b :
  Game_objects db !! g = Some game →
  a ∈ get_leaderboard db r g start end_ →
  b ∈ get_leaderboard db r g start end_ →
  rank a < rank b →
  ∃ (i j : nat) ea eb,
    (i < j)%nat
    ∧ Redis.zrevrange (get_leaderboard_key g) start end_ r !! i = Some ea
    ∧ Redis.zrevrange (get_leaderboard_key g) start end_ r !! j = Some eb
    ∧ user_id a = ea.1 ∧ user_id b = eb.1
    ∧ score a = _convert_score_from_redis ea.2 (Game.score_type game)
    ∧ score b = _convert_score_from_redis eb.2 (Game.score_type game).
Proof.
  intros Hg Ha Hb Hlt.
  apply (get_leaderboard_elem db r g start end_ game a Hg) in Ha
    as (i & ea & ua & Hi & _ & ->).
  apply (get_leaderboard_elem db r g start end_ game b Hg) in Hb
    as (j & eb & ub & Hj & _ & ->).
  simpl in Hlt. exists i, j, ea, eb. repeat split; try done. lia.
Qed.

End page_shape.

(** ** update_user_score *)

Section upsert.
Implicit Types (r : gmap string (gmap Z Z)).

(** X1.  A score written by [update_user_score] reads back: the game index
    holds for the user a key that converts back to the score, and the
    global index holds the score itself. *)
Theorem update_user_score_reads_back (g u s : Z) (st : string) r :
  (λ k, _convert_score_from_redis k st)
    <$> Redis.zscore (get_leaderboard_key g) u (update_user_score g u s st r)
  = Some s
  ∧ Redis.zscore get_global_leaderboard_key u (update_user_score g u s st r)
    = Some s.
Proof.
  unfold Redis.zscore.
  rewrite update_user_score_game_key, update_user_score_global_key.
  rewrite !lookup_insert_eq. split; [|done]. simpl. f_equal.
  unfold _convert_score_from_redis, _convert_score_for_redis.
  destruct (String.eqb st "highest"); lia.
Qed.

(** X2.  [update_user_score] touches nothing but the entries of its user in
    the index of its game and in the global index: the entries of every
    other user in both, and every other Redis key, stay as they were. *)
Theorem update_user_score_frame (g u s : Z) (st : string) r (u' : Z) (key : string) :
  (u' ≠ u →
   Redis.zscore (get_leaderboard_key g) u' (update_user_score g u s st r)
   = Redis.zscore (get_leaderboard_key g) u' r
   ∧ Redis.zscore get_global_leaderboard_key u' (update_user_score g u s st r)
     = Redis.zscore get_global_leaderboard_key u' r)
  ∧ (key ≠ get_leaderboard_key g → key ≠ get_global_leaderboard_key →
     update_user_score g u s st r !! key = r !! key).
Proof.
  split.
  - intros Hu. unfold Redis.zscore.
    rewrite update_user_score_game_key, update_user_score_global_key.
    by rewrite !lookup_insert_ne.
  - intros Hk1 Hk2. rewrite update_user_score_lookup.
    by rewrite !decide_False.
Qed.

Lemma update_user_score_frame_witness :
  Scenario.U2 ≠ Scenario.U1
  ∧ Redis.zscore (get_leaderboard_key Scenario.G) Scenario.U2
      (update_user_score Scenario.G Scenario.U1 100 "highest" Scenario.stA.2)
    = Redis.zscore (get_leaderboard_key Scenario.G) Scenario.U2 Scenario.stA.2
  ∧ get_leaderboard_key Scenario.G2 ≠ get_leaderboard_key Scenario.G
  ∧ get_leaderboard_key Scenario.G2 ≠ get_global_leaderboard_key
  ∧ update_user_score Scenario.G Scenario.U1 100 "highest" Scenario.stE.2
      !! get_leaderboard_key Scenario.G2
    = Scenario.stE.2 !! get_leaderboard_key Scenario.G2.
Proof.
  assert (Scenario.U2 ≠ Scenario.U1) as H1 by (vm_compute; discriminate).
  assert (get_leaderboard_key Scenario.G2 ≠ get_leaderboard_key Scenario.G)
    as H2 by (vm_compute; discriminate).
  assert (get_leaderboard_key Scenario.G2 ≠ get_global_leaderboard_key)
    as H3 by (vm_compute; discriminate).
  split; [exact H1|]. split.
  { exact (proj1 (proj1 (update_user_score_frame Scenario.G Scenario.U1 100
             "highest" Scenario.stA.2 Scenario.U2 "") H1)). }
  split; [exact H2|]. split; [exact H3|].
  exact (proj2 (update_user_score_frame Scenario.G Scenario.U1 100 "highest"
           Scenario.stE.2 0 (get_leaderboard_key Scenario.G2)) H2 H3).
Defined.

(** X3.  The last write wins: a second [update_user_score] for the same user
    and game leaves the state the second write alone would have left,
    whatever the first one wrote. *)
Theorem update_user_score_last_write_wins (g u s1 s2 : Z) (st1 st2 : string) r :
  update_user_score g u s2 st2 (update_user_score g u s1 st1 r)
  = update_user_score g u s2 st2 r.
Proof.
  apply map_eq. intros key. rewrite !update_user_score_lookup.
  rewrite update_user_score_game_key, update_user_score_global_key.
  rewrite !insert_insert_eq. by repeat case_decide.
Qed.

(** X4.  Writes for two different users of one game commute. *)
Theorem update_user_score_commute (g u1 u2 s1 s2 : Z) (st1 st2 : string) r :
  u1 ≠ u2 →
  update_user_score g u1 s1 st1 (update_user_score g u2 s2 st2 r)
  = update_user_score g u2 s2 st2 (update_user_score g u1 s1 st1 r).
Proof.
  intros Hne. apply map_eq. intros key. rewrite !update_user_score_lookup.
  rewrite !update_user_score_game_key, !update_user_score_global_key.
  repeat case_decide; try done; f_equal; by apply insert_insert_ne.
Qed.

Lemma update_user_score_commute_witness :
  Scenario.U1 ≠ Scenario.U2
  ∧ update_user_score Scenario.G Scenario.U1 100 "highest"
      (update_user_score Scenario.G Scenario.U2 250 "highest" ∅)
    = update_user_score Scenario.G Scenario.U2 250 "highest"
        (update_user_score Scenario.G Scenario.U1 100 "highest" ∅).
Proof.
  assert (Scenario.U1 ≠ Scenario.U2) as H by (vm_compute; discriminate).
  split; [exact H|].
  exact (update_user_score_commute Scenario.G Scenario.U1 Scenario.U2 100 250
           "highest" "highest" ∅ H).
Defined.

(** X5.  [update_user_score] adds one player to the game when the user had
    no entry in its index and leaves the number of players unchanged
    otherwise. *)
Theorem update_user_score_total_players (g u s : Z) (st : string) r :
  Redis.zcard (get_leaderboard_key g) (update_user_score g u s st r)
  = match Redis.zscore (get_leaderboard_key g) u r with
    | Some _ => Redis.zcard (get_leaderboard_key g) r
    | None => Redis.zcard (get_leaderboard_key g) r + 1
    end.
Proof.
  unfold Redis.zcard, Redis.zscore. rewrite update_user_score_game_key.
  destruct (Redis.zset_at (get_leaderboard_key g) r !! u) as [k|] eqn:Hu.
  - by rewrite map_size_insert_Some by (by eexists).
  - rewrite map_size_insert_None by done. lia.
Qed.

End upsert.

(** ** get_leaderboard *)

Section leaderboard_pages.
Implicit Types (r : gmap string (gmap Z Z)) (db : Database).

Lemma page_bounds db r (g start end_ : Z) :
  0 ≤ start → 0 ≤ end_ →
  Z.of_nat (length (get_leaderboard db r g start end_)) ≤ Z.max 0 (end_ - start + 1)
  ∧ ∀ row, row ∈ get_leaderboard db r g start end_ →
           start + 1 ≤ rank row ≤ end_ + 1.
Proof.
  intros Hs He. destruct (Game_objects db !! g) as [game|] eqn:Hg.
  - pose proof (range_by_rank_length
                  (Redis.descending (Redis.zset_at (get_leaderboard_key g) r))
                  start end_ Hs He) as Hlen.
    fold (Redis.zrevrange (get_leaderboard_key g) start end_ r) in Hlen.
    split.
    + rewrite (get_leaderboard_as_rows db r g start end_ game Hg).
      pose proof (leaderboard_rows_length
        (user_dict_of db (Redis.zrevrange (get_leaderboard_key g) start end_ r).*1)
        (Game.score_type game) (start + 1)
        (Redis.zrevrange (get_leaderboard_key g) start end_ r)).
      lia.
    + intros row (i & entry & user & Hi & _ & ->)%(get_leaderboard_elem db r g start end_ game); [|done].
      apply lookup_lt_Some in Hi. simpl. lia.
  - rewrite get_leaderboard_missing_game by done. split; [simpl; lia|].
    by intros row ?%elem_of_nil.
Qed.

(** X6.  For a window with non-negative bounds, [get_leaderboard] returns at
    most [end - start + 1] rows (none when end is below start), and every
    rank on the page lies between [start + 1] and [end + 1]. *)
Theorem get_leaderboard_page_bounds db r (g start end_ : Z) :
  0 ≤ start → 0 ≤ end_ →
  Z.of_nat (length (get_leaderboard db r g start end_)) ≤ Z.max 0 (end_ - start + 1)
  ∧ ∀ row, row ∈ get_leaderboard db r g start end_ →
           start + 1 ≤ rank row ≤ end_ + 1.
Proof.
  intros Hs He. destruct (Game_objects db !! g) as [game|] eqn:Hg.
  - pose proof (range_by_rank_length
                  (Redis.descending (Redis.zset_at (get_leaderboard_key g) r))
                  start end_ Hs He) as Hlen.
    fold (Redis.zrevrange (get_leaderboard_key g) start end_ r) in Hlen.
    split.
    + rewrite (get_leaderboard_as_rows db r g start end_ game Hg).
      pose proof (leaderboard_rows_length
        (user_dict_of db (Redis.zrevrange (get_leaderboard_key g) start end_ r).*1)
        (Game.score_type game) (start + 1)
        (Redis.zrevrange (get_leaderboard_key g) start end_ r)).
      lia.
    + intros row (i & entry & user & Hi & _ & ->)%(get_leaderboard_elem db r g start end_ game); [|done].
      apply lookup_lt_Some in Hi. simpl. lia.
  - rewrite get_leaderboard_missing_game by done. split; [simpl; lia|].
    by intros row ?%elem_of_nil.
Qed.

Lemma get_leaderboard_page_bounds_witness :
  0 ≤ 1 ∧ 0 ≤ 2
  ∧ Z.of_nat (length (get_leaderboard Scenario.stA.1 Scenario.stA.2 Scenario.G 1 2))
    ≤ Z.max 0 (2 - 1 + 1)
  ∧ ∀ row, row ∈ get_leaderboard Scenario.stA.1 Scenario.stA.2 Scenario.G 1 2 →
           1 + 1 ≤ rank row ≤ 2 + 1.
Proof.
  assert (0 ≤ 1) as H1 by lia. assert (0 ≤ 2) as H2 by lia.
  split; [exact H1|]. split; [exact H2|].
  exact (get_leaderboard_page_bounds Scenario.stA.1 Scenario.stA.2 Scenario.G 1 2 H1 H2).
Defined.

(** X7.  On every page of [get_leaderboard] the ranks are strictly
    increasing from top to bottom. *)
Theorem get_leaderboard_ranks_increasing db r (g start end_ : Z) :
  StronglySorted (λ a b, rank a < rank b) (get_leaderboard db r g start end_).
Proof.
  unfold get_leaderboard.
  destruct (Game_objects db !! g) as [game|]; [|constructor].
  destruct (Redis.zrevrange (get_leaderboard_key g) start end_ r) as [|e ranked];
    [constructor|].
  apply leaderboard_rows_ranks.
Qed.

(** X8.  On every page of [get_leaderboard] no raw score is better than a
    score below it: the rows run from the worst score to the best, for a
    highest-wins game from the lowest score up and for the other games from
    the highest score down. *)
Theorem get_leaderboard_lists_worst_first db r (g start end_ : Z) game :
  Game_objects db !! g = Some game →
  StronglySorted
    (λ a b, at_least_as_good (Game.score_type game) (score b) (score a))
    (get_leaderboard db r g start end_).
Proof.
  intros Hg.
  apply (StronglySorted_strengthen (λ a b, rank a < rank b));
    [|apply get_leaderboard_ranks_sorted].
  intros a b Ha Hb Hlt.
  destruct (get_leaderboard_two_rows db r g start end_ game a b Hg Ha Hb Hlt)
    as (i & j & ea & eb & Hij & Hi & Hj & _ & _ & -> & ->).
  pose proof (StronglySorted_lookup _ _ i j ea eb
                (zrevrange_sorted (get_leaderboard_key g) start end_ r)
                Hij Hi Hj) as Hle.
  simpl in Hle. unfold at_least_as_good, _convert_score_from_redis.
  destruct (String.eqb (Game.score_type game) "highest"); lia.
Qed.

Lemma get_leaderboard_lists_worst_first_witness :
  Game_objects Scenario.stB.1 !! Scenario.G = Some (Game.mk "game" true "time")
  ∧ StronglySorted (λ a b, at_least_as_good "time" (score b) (score a))
      (get_leaderboard Scenario.stB.1 Scenario.stB.2 Scenario.G 0 9).
Proof.
  assert (Game_objects Scenario.stB.1 !! Scenario.G
          = Some (Game.mk "game" true "time")) as H by (vm_compute; reflexivity).
  split; [exact H|].
  exact (get_leaderboard_lists_worst_first Scenario.stB.1 Scenario.stB.2
           Scenario.G 0 9 _ H).
Defined.

(** X9.  No user appears twice on a page of [get_leaderboard]. *)
Theorem get_leaderboard_users_distinct db r (g start end_ : Z) :
  NoDup (user_id <$> get_leaderboard db r g start end_).
Proof.
  apply StronglySorted_ne_NoDup.
  destruct (Game_objects db !! g) as [game|] eqn:Hg.
  - apply (StronglySorted_strengthen (λ a b, rank a < rank b));
      [|apply get_leaderboard_ranks_sorted].
    intros a b Ha Hb Hlt Heq.
    destruct (get_leaderboard_two_rows db r g start end_ game a b Hg Ha Hb Hlt)
      as (i & j & ea & eb & Hij & Hi & Hj & Hua & Hub & _).
    assert (i = j); [|lia].
    apply (zrevrange_lookup_member _ _ _ _ i j ea eb Hi Hj). congruence.
  - rewrite get_leaderboard_missing_game by done. constructor.
Qed.

(** X10.  [get_leaderboard] and [get_user_rank] agree: for a window that
    starts at a non-negative index, the user of every row of the page is
    reported by [get_user_rank] with the rank and the score of that row. *)
Theorem get_leaderboard_agrees_with_get_user_rank db r (g start end_ : Z) row :
  0 ≤ start →
  row ∈ get_leaderboard db r g start end_ →
  ∃ info, get_user_rank db r g (user_id row) = Some info
          ∧ user_rank info = rank row ∧ user_score info = score row.
Proof.
  intros Hs Hrow. destruct (Game_objects db !! g) as [game|] eqn:Hg.
  - pose proof Hrow as Hrow'.
    apply (get_leaderboard_elem db r g start end_ game row Hg) in Hrow'
      as (i & [u k] & user & Hi & _ & ->).
    pose proof (zrevrange_elem _ _ _ _ _ _ Hi) as Hscore.
    apply range_by_rank_lookup in Hi; [|done].
    apply position_lookup in Hi; [|apply descending_NoDup].
    unfold get_user_rank. rewrite Hg. simpl in *.
    unfold Redis.zrevrank. rewrite Hi, Hscore.
    eexists. split; [done|]. simpl. split; [lia|done].
  - rewrite get_leaderboard_missing_game in Hrow by done.
    by apply elem_of_nil in Hrow.
Qed.

Lemma get_leaderboard_agrees_witness :
  0 ≤ 1
  ∧ mkLeaderboardEntry 3 Scenario.U2 "u2@example.com" "Bob" 25000
      ∈ get_leaderboard Scenario.stA.1 Scenario.stA.2 Scenario.G 1 2
  ∧ ∃ info, get_user_rank Scenario.stA.1 Scenario.stA.2 Scenario.G Scenario.U2
            = Some info
            ∧ user_rank info = 3 ∧ user_score info = 25000.
Proof.
  assert (0 ≤ 1) as H1 by lia.
  assert (mkLeaderboardEntry 3 Scenario.U2 "u2@example.com" "Bob" 25000
            ∈ get_leaderboard Scenario.stA.1 Scenario.stA.2 Scenario.G 1 2) as H2.
  { replace (get_leaderboard Scenario.stA.1 Scenario.stA.2 Scenario.G 1 2)
      with [mkLeaderboardEntry 2 Scenario.U1 "u1@example.com" "Ann" 10000;
            mkLeaderboardEntry 3 Scenario.U2 "u2@example.com" "Bob" 25000]
      by (vm_compute; reflexivity).
    apply list_elem_of_further, list_elem_of_here. }
  split; [exact H1|]. split; [exact H2|].
  exact (get_leaderboard_agrees_with_get_user_rank Scenario.stA.1 Scenario.stA.2
           Scenario.G 1 2 _ H1 H2).
Defined.

End leaderboard_pages.

(** ** get_user_rank *)

Section user_rank.
Implicit Types (r : gmap string (gmap Z Z)) (db : Database).

Lemma range_by_rank_lookup_2 {A} (l : list A) (start stop : Z) (i : nat) e :
  0 ≤ start → 0 ≤ stop → Z.of_nat i ≤ stop - start →
  l !! (Z.to_nat start + i)%nat = Some e →
  Redis.range_by_rank l start stop !! i = Some e.
Proof.
  intros Hs He Hi Hl.
  destruct (range_by_rank_window l start stop) as (k & n & -> & Hk & Hn).
  rewrite (Hk Hs), (Hn Hs He). apply lookup_take_Some. split; [|lia].
  by rewrite lookup_drop.
Qed.

(** What [get_user_rank] computes from the position and the key of the
    user in the index of the game. *)
Lemma get_user_rank_Some db r g u info :
  get_user_rank db r g u = Some info →
  ∃ game k key,
    Game_objects db !! g = Some game
    ∧ Redis.zrevrank (get_leaderboard_key g) u r = Some k
    ∧ Redis.zscore (get_leaderboard_key g) u r = Some key
    ∧ info = mkUserRank (k + 1)
               (_convert_score_from_redis key (Game.score_type game))
               (get_leaderboard db r g (Z.max 0 (k - 5)) (k + 5))
               (Redis.zcard (get_leaderboard_key g) r).
Proof.
  unfold get_user_rank.
  destruct (Game_objects db !! g) as [game|]; [|done].
  destruct (Redis.zrevrank _ _ _) as [k|]; [|done].
  destruct (Redis.zscore _ _ _) as [key|]; [|done].
  intros [= <-]. by exists game, k, key.
Qed.

Lemma get_user_rank_answers db r g u :
  is_Some (Game_objects db !! g) →
  is_Some (Redis.zscore (get_leaderboard_key g) u r) →
  is_Some (get_user_rank db r g u).
Proof.
  intros [game Hg] Hscore. pose proof Hscore as Hrank.
  apply zrevrank_zscore in Hrank as [k Hk]. destruct Hscore as [key Hkey].
  unfold get_user_rank. rewrite Hg, Hk, Hkey. by eexists.
Qed.

(** X11.  [get_user_rank] answers exactly for an existing game and a user
    with an entry in the index of that game; otherwise it returns [None]. *)
Theorem get_user_rank_is_Some_iff db r (g u : Z) :
  is_Some (get_user_rank db r g u)
  ↔ is_Some (Game_objects db !! g)
    ∧ is_Some (Redis.zscore (get_leaderboard_key g) u r).
Proof.
  split.
  - intros [info (game & k & key & Hg & _ & Hkey & _)%get_user_rank_Some].
    split; by eexists.
  - intros [Hg Hscore]. by apply get_user_rank_answers.
Qed.

(** X12.  Whenever [get_user_rank] answers, the rank it reports lies between
    1 and the number of players it reports, that number is the cardinality
    of the index, and the score is the stored key converted back. *)
Theorem get_user_rank_bounds db r (g u : Z) info :
  get_user_rank db r g u = Some info →
  1 ≤ user_rank info ≤ total_players info
  ∧ total_players info = Redis.zcard (get_leaderboard_key g) r
  ∧ ∃ game key,
      Game_objects db !! g = Some game
      ∧ Redis.zscore (get_leaderboard_key g) u r = Some key
      ∧ user_score info = _convert_score_from_redis key (Game.score_type game).
Proof.
  intros (game & k & key & Hg & Hk & Hkey & ->)%get_user_rank_Some. simpl.
  apply position_Some in Hk as [Hk _]. rewrite descending_length in Hk.
  unfold Redis.zcard. split; [lia|]. split; [done|]. by exists game, key.
Qed.

Lemma get_user_rank_bounds_witness :
  get_user_rank Scenario.stA.1 Scenario.stA.2 Scenario.G Scenario.U1
  = Some (mkUserRank 2 10000
            (get_leaderboard Scenario.stA.1 Scenario.stA.2 Scenario.G 0 6) 3)
  ∧ 1 ≤ 2 ≤ 3.
Proof.
  assert (get_user_rank Scenario.stA.1 Scenario.stA.2 Scenario.G Scenario.U1
          = Some (mkUserRank 2 10000
                    (get_leaderboard Scenario.stA.1 Scenario.stA.2 Scenario.G 0 6) 3))
    as H by (vm_compute; reflexivity).
  split; [exact H|].
  exact (proj1 (get_user_rank_bounds Scenario.stA.1 Scenario.stA.2 Scenario.G
                  Scenario.U1 _ H)).
Defined.

(** X13.  The neighbourhood returned by [get_user_rank] has at most eleven
    rows, all with a rank within five of the user's; and when the user's
    account resolves, the user's own row is among them, with the reported
    rank and score. *)
Theorem get_user_rank_surrounding_players db r (g u : Z) info :
  get_user_rank db r g u = Some info →
  (length (surrounding_players info) ≤ 11)%nat
  ∧ (∀ row, row ∈ surrounding_players info →
            user_rank info - 5 ≤ rank row ≤ user_rank info + 5)
  ∧ (is_Some (User_objects db !! u) →
     ∃ row, row ∈ surrounding_players info
            ∧ user_id row = u ∧ rank row = user_rank info
            ∧ score row = user_score info).
Proof.
  intros (game & k & key & Hg & Hk & Hkey & ->)%get_user_rank_Some. simpl.
  apply position_Some in Hk as [Hk (s & Hs)].
  assert (s = key) as ->.
  { apply list_elem_of_lookup_2, elem_of_descending in Hs.
    unfold Redis.zscore in Hkey. congruence. }
  assert (0 ≤ Z.max 0 (k - 5)) as H0 by lia.
  assert (0 ≤ k + 5) as H1 by lia.
  destruct (page_bounds db r g _ _ H0 H1) as [Hlen Hranks].
  split; [lia|]. split.
  - intros row Hrow. specialize (Hranks row Hrow). lia.
  - intros [user Huser].
    exists (row_of (Game.score_type game) (k + 1) (u, key) user).
    split; [|done].
    apply (get_leaderboard_elem db r g _ _ game _ Hg).
    exists (Z.to_nat (k - Z.max 0 (k - 5))), (u, key), user.
    split; [|split; [done|f_equal; lia]].
    unfold Redis.zrevrange. apply range_by_rank_lookup_2; [lia..|].
    by replace (Z.to_nat (Z.max 0 (k - 5)) + Z.to_nat (k - Z.max 0 (k - 5)))%nat
      with (Z.to_nat k) by lia.
Qed.

Lemma get_user_rank_surrounding_players_witness :
  get_user_rank Scenario.stA.1 Scenario.stA.2 Scenario.G Scenario.U1
  = Some (mkUserRank 2 10000
            (get_leaderboard Scenario.stA.1 Scenario.stA.2 Scenario.G 0 6) 3)
  ∧ (length (get_leaderboard Scenario.stA.1 Scenario.stA.2 Scenario.G 0 6) ≤ 11)%nat.
Proof.
  assert (get_user_rank Scenario.stA.1 Scenario.stA.2 Scenario.G Scenario.U1
          = Some (mkUserRank 2 10000
                    (get_leaderboard Scenario.stA.1 Scenario.stA.2 Scenario.G 0 6) 3))
    as H by (vm_compute; reflexivity).
  split; [exact H|].
  exact (proj1 (get_user_rank_surrounding_players Scenario.stA.1 Scenario.stA.2
                  Scenario.G Scenario.U1 _ H)).
Defined.

(** X14.  After [Score.objects.create] for an existing game, [get_user_rank]
    answers for the submitting user and reports the score just submitted. *)
Theorem submitted_score_is_ranked db r (u g x : Z) game :
  Game_objects db !! g = Some game →
  ∃ info,
    get_user_rank (Score_objects_create db r u g x).1
      (Score_objects_create db r u g x).2 g u = Some info
    ∧ user_score info = x.
Proof.
  intros Hg.
  assert (Redis.zscore (get_leaderboard_key g) u (Score_objects_create db r u g x).2
          = Some (_convert_score_for_redis x (Game.score_type game))) as Hkey.
  { unfold Score_objects_create, Score_update_redis_leaderboard. simpl.
    rewrite Hg. unfold Redis.zscore.
    by rewrite update_user_score_game_key, lookup_insert_eq. }
  destruct (get_user_rank_answers (Score_objects_create db r u g x).1
              (Score_objects_create db r u g x).2 g u) as [info Hinfo];
    [by exists game|by eexists|].
  exists info. split; [done|].
  apply get_user_rank_Some in Hinfo as (game' & k & key & Hg' & _ & Hkey' & ->).
  simpl in Hg'. rewrite Hg in Hg'. injection Hg' as <-.
  rewrite Hkey in Hkey'. injection Hkey' as <-. simpl.
  unfold _convert_score_from_redis, _convert_score_for_redis.
  destruct (String.eqb (Game.score_type game) "highest"); lia.
Qed.

Lemma submitted_score_is_ranked_witness :
  Game_objects (Scenario.db0 "time") !! Scenario.G = Some (Game.mk "game" true "time")
  ∧ ∃ info,
      get_user_rank (Score_objects_create (Scenario.db0 "time") ∅ Scenario.U1 Scenario.G 1250).1
        (Score_objects_create (Scenario.db0 "time") ∅ Scenario.U1 Scenario.G 1250).2
        Scenario.G Scenario.U1 = Some info
      ∧ user_score info = 1250.
Proof.
  assert (Game_objects (Scenario.db0 "time") !! Scenario.G
          = Some (Game.mk "game" true "time")) as H by (vm_compute; reflexivity).
  split; [exact H|].
  exact (submitted_score_is_ranked (Scenario.db0 "time") ∅ Scenario.U1 Scenario.G
           1250 _ H).
Defined.

End user_rank.

(** ** The global leaderboard *)

Section global_pages.
Implicit Types (r : gmap string (gmap Z Z)) (db : Database).

Lemma leaderboard_rows_by_key user_dict rank0 (ranked : list (Z * Z)) :
  StronglySorted (λ a b : Z * Z, b.2 ≤ a.2) ranked →
  StronglySorted (λ a b, rank a < rank b ∧ score b ≤ score a)
    (leaderboard_rows user_dict "" rank0 ranked).
Proof.
  intros Hsorted.
  apply (StronglySorted_strengthen (λ a b, rank a < rank b));
    [|apply leaderboard_rows_ranks].
  intros a b (i & ea & ua & Hi & _ & ->)%leaderboard_rows_elem
             (j & eb & ub & Hj & _ & ->)%leaderboard_rows_elem Hlt.
  simpl in *. split; [done|].
  apply (StronglySorted_lookup _ _ i j ea eb Hsorted); [lia|done..].
Qed.

(** X15.  On every page of [get_global_leaderboard] the ranks are strictly
    increasing and the total scores never increase from top to bottom: the
    highest stored global score comes first. *)
Theorem get_global_leaderboard_highest_first db r (start end_ : Z) :
  StronglySorted (λ a b, g_rank a < g_rank b ∧ total_score b ≤ total_score a)
    (get_global_leaderboard db r start end_).
Proof.
  unfold get_global_leaderboard.
  pose proof (zrevrange_sorted get_global_leaderboard_key start end_ r) as Hs.
  destruct (Redis.zrevrange get_global_leaderboard_key start end_ r)
    as [|e ranked] eqn:Hr; [constructor|].
  rewrite global_rows_as_rows.
  apply (StronglySorted_fmap _ (λ a b, rank a < rank b ∧ score b ≤ score a));
    [done|].
  by apply leaderboard_rows_by_key.
Qed.

Lemma get_user_global_rank_spec_None r (u : Z) :
  Redis.zscore get_global_leaderboard_key u r = None →
  get_user_global_rank r u = None.
Proof.
  intros Hs. unfold get_user_global_rank.
  destruct (Redis.zrevrank get_global_leaderboard_key u r) as [k|] eqn:Hk;
    [|done].
  destruct (proj1 (zrevrank_zscore get_global_leaderboard_key u r)) as [? Hs'];
    [by eexists|]. congruence.
Qed.

(** X16.  [get_user_global_rank] returns [None] exactly for a user without
    an entry in the global index; otherwise it reports the stored global
    score, the cardinality of the global index as the number of players,
    and a rank between 1 and that number. *)
Theorem get_user_global_rank_spec r (u : Z) :
  match Redis.zscore get_global_leaderboard_key u r with
  | None => get_user_global_rank r u = None
  | Some total =>
      ∃ k, get_user_global_rank r u
           = Some (mkUserGlobalRank k total
                     (Redis.zcard get_global_leaderboard_key r))
           ∧ 1 ≤ k ≤ Redis.zcard get_global_leaderboard_key r
  end.
Proof.
  destruct (Redis.zscore get_global_leaderboard_key u r) as [total|] eqn:Hs;
    [|by apply get_user_global_rank_spec_None].
  unfold get_user_global_rank. rewrite Hs.
  - destruct (proj2 (zrevrank_zscore get_global_leaderboard_key u r)) as [k Hk];
      [by eexists|].
    rewrite Hk. exists (k + 1). split; [done|].
    apply position_Some in Hk as [Hk _]. rewrite descending_length in Hk.
    unfold Redis.zcard. lia.
Qed.

End global_pages.

(** ** Clearing *)

Section clearing.
Implicit Types (r : gmap string (gmap Z Z)) (db : Database).

Lemma range_by_rank_nil {A} (start stop : Z) :
  Redis.range_by_rank (@nil A) start stop = [].
Proof.
  destruct (range_by_rank_window (@nil A) start stop) as (k & n & -> & _).
  by rewrite drop_nil, take_nil.
Qed.

Lemma zrevrange_empty key start stop r :
  Redis.zset_at key r = ∅ → Redis.zrevrange key start stop r = [].
Proof.
  intros Hz. unfold Redis.zrevrange, Redis.descending, Redis.ascending.
  rewrite Hz, map_to_list_empty. apply range_by_rank_nil.
Qed.

(** X17.  After [clear_leaderboard] the game has no ranking left: every
    window of [get_leaderboard] with indexes in the signed 64-bit range
    Redis accepts is empty, [get_user_rank] returns [None] for every user
    and the index has no member; every other Redis key, the global index
    included, is as it was. *)
Theorem clear_leaderboard_empties_the_game db r (g : Z) :
  (∀ start end_, Redis.int64 start → Redis.int64 end_ →
     get_leaderboard db (clear_leaderboard g r) g start end_ = [])
  ∧ (∀ u, get_user_rank db (clear_leaderboard g r) g u = None)
  ∧ Redis.zcard (get_leaderboard_key g) (clear_leaderboard g r) = 0
  ∧ (∀ key, key ≠ get_leaderboard_key g → clear_leaderboard g r !! key = r !! key).
Proof.
  assert (Redis.zset_at (get_leaderboard_key g) (clear_leaderboard g r) = ∅)
    as Hz by apply zset_at_delete_eq.
  split; [|split; [|split]].
  - intros start end_ _ _. unfold get_leaderboard. case_match; [|done].
    by rewrite zrevrange_empty.
  - intros u. apply get_user_rank_unranked. unfold Redis.zscore.
    by rewrite Hz.
  - unfold Redis.zcard. by rewrite Hz.
  - intros key Hk. unfold clear_leaderboard, Redis.delete.
    by rewrite lookup_delete_ne.
Qed.

Lemma clear_leaderboard_empties_the_game_witness :
  Redis.int64 0 ∧ Redis.int64 99
  ∧ get_leaderboard Scenario.stA.1 (clear_leaderboard Scenario.G Scenario.stA.2)
      Scenario.G 0 99 = []
  ∧ get_global_leaderboard_key ≠ get_leaderboard_key Scenario.G
  ∧ clear_leaderboard Scenario.G Scenario.stA.2 !! get_global_leaderboard_key
    = Scenario.stA.2 !! get_global_leaderboard_key.
Proof.
  assert (Redis.int64 0) as I0 by (vm_compute; split; [discriminate|reflexivity]).
  assert (Redis.int64 99) as I99 by (vm_compute; split; [discriminate|reflexivity]).
  assert (get_global_leaderboard_key ≠ get_leaderboard_key Scenario.G) as Hk
    by (vm_compute; discriminate).
  split; [exact I0|]. split; [exact I99|]. split.
  { exact (proj1 (clear_leaderboard_empties_the_game Scenario.stA.1 Scenario.stA.2
                    Scenario.G) 0 99 I0 I99). }
  split; [exact Hk|].
  exact (proj2 (proj2 (proj2 (clear_leaderboard_empties_the_game Scenario.stA.1
                                Scenario.stA.2 Scenario.G))) _ Hk).
Defined.

(** X18.  After [clear_global_leaderboard] every window of
    [get_global_leaderboard] with indexes in the signed 64-bit range Redis
    accepts is empty and [get_user_global_rank] returns [None] for every
    user, while every game leaderboard reads as before. *)
Theorem clear_global_leaderboard_empties_global db r :
  (∀ start end_, Redis.int64 start → Redis.int64 end_ →
     get_global_leaderboard db (clear_global_leaderboard r) start end_ = [])
  ∧ (∀ u, get_user_global_rank (clear_global_leaderboard r) u = None)
  ∧ (∀ g start end_,
       get_leaderboard db (clear_global_leaderboard r) g start end_
       = get_leaderboard db r g start end_)
  ∧ (∀ g u, get_user_rank db (clear_global_leaderboard r) g u
            = get_user_rank db r g u).
Proof.
  assert (Redis.zset_at get_global_leaderboard_key (clear_global_leaderboard r) = ∅)
    as Hz by apply zset_at_delete_eq.
  assert (∀ g, Redis.zset_at (get_leaderboard_key g) (clear_global_leaderboard r)
               = Redis.zset_at (get_leaderboard_key g) r) as Hg.
  { intros g. apply zset_at_delete_ne, not_eq_sym, game_key_ne_global. }
  assert (∀ g start end_,
            get_leaderboard db (clear_global_leaderboard r) g start end_
            = get_leaderboard db r g start end_) as Hpage.
  { intros g start end_. unfold get_leaderboard, Redis.zrevrange.
    by rewrite Hg. }
  split; [|split; [|split]].
  - intros start end_ _ _. unfold get_global_leaderboard.
    by rewrite zrevrange_empty.
  - intros u. apply get_user_global_rank_spec_None.
    unfold Redis.zscore. by rewrite Hz.
  - done.
  - intros g u. unfold get_user_rank.
    destruct (Game_objects db !! g) as [game|]; [|done].
    unfold Redis.zrevrank, Redis.zscore, Redis.zcard. rewrite Hg.
    destruct (Redis.position u _) as [k|]; [|done].
    destruct (Redis.zset_at (get_leaderboard_key g) r !! u); [|done].
    by rewrite Hpage.
Qed.

Lemma clear_global_leaderboard_empties_global_witness :
  Redis.int64 0 ∧ Redis.int64 99
  ∧ get_global_leaderboard Scenario.stD.1
      (clear_global_leaderboard Scenario.stD.2) 0 99 = [].
Proof.
  assert (Redis.int64 0) as I0 by (vm_compute; split; [discriminate|reflexivity]).
  assert (Redis.int64 99) as I99 by (vm_compute; split; [discriminate|reflexivity]).
  split; [exact I0|]. split; [exact I99|].
  exact (proj1 (clear_global_leaderboard_empties_global Scenario.stD.1
                  Scenario.stD.2) 0 99 I0 I99).
Defined.

End clearing.

(** ** Rebuilding *)

Section rebuilding.
Implicit Types (r : gmap string (gmap Z Z)) (db : Database) (xs : list Z).

Lemma at_least_as_good_refl st a : at_least_as_good st a a.
Proof. unfold at_least_as_good. by destruct (String.eqb st "highest"). Qed.

Lemma at_least_as_good_trans st a b c :
  at_least_as_good st a b → at_least_as_good st b c → at_least_as_good st a c.
Proof. unfold at_least_as_good. destruct (String.eqb st "highest"); lia. Qed.

Lemma pick_of_cases st a b :
  (pick_of st a b = a ∨ pick_of st a b = b)
  ∧ at_least_as_good st (pick_of st a b) a
  ∧ at_least_as_good st (pick_of st a b) b.
Proof.
  unfold pick_of, at_least_as_good. destruct (String.eqb st "highest"); lia.
Qed.

Lemma best_with_snoc pick xs x :
  best_with pick (xs ++ [x]) = opt_keep pick (best_with pick xs) x.
Proof. unfold best_with. by rewrite foldl_snoc. Qed.

Lemma best_with_None pick xs : best_with pick xs = None ↔ xs = [].
Proof.
  split; [|by intros ->].
  destruct xs as [|x xs _] using rev_ind; [done|].
  by rewrite best_with_snoc.
Qed.

(** The value the first loop keeps is one of the scores and is at least as
    good as each of them. *)
Lemma best_with_spec st xs b :
  best_with (pick_of st) xs = Some b →
  b ∈ xs ∧ ∀ x, x ∈ xs → at_least_as_good st b x.
Proof.
  revert b. induction xs as [|x xs IH] using rev_ind; intros b; [done|].
  rewrite best_with_snoc. unfold opt_keep. intros [= <-].
  destruct (best_with (pick_of st) xs) as [y|] eqn:Hy.
  - destruct (IH y eq_refl) as [Hin Hbest].
    destruct (pick_of_cases st y x) as ([Hp|Hp] & Hgy & Hgx).
    + split; [rewrite Hp; apply elem_of_app; by left|].
      intros z [Hz|Hz%list_elem_of_singleton]%elem_of_app; [|by subst].
      eapply at_least_as_good_trans; [exact Hgy|by apply Hbest].
    + split; [rewrite Hp; apply elem_of_app; right; apply list_elem_of_here|].
      intros z [Hz|Hz%list_elem_of_singleton]%elem_of_app; [|by subst].
      eapply at_least_as_good_trans; [exact Hgy|by apply Hbest].
  - apply best_with_None in Hy as ->. simpl. split; [apply list_elem_of_here|].
    intros z ->%list_elem_of_singleton. apply at_least_as_good_refl.
Qed.

Lemma elem_of_raws_of u (l : list Score.t) x :
  x ∈ raws_of u l ↔ ∃ s, s ∈ l ∧ Score.user s = u ∧ Score.score s = x.
Proof.
  unfold raws_of. rewrite list_elem_of_fmap. split.
  - intros (s & -> & [Hu Hs]%list_elem_of_filter). by exists s.
  - intros (s & Hs & Hu & <-). exists s. split; [done|].
    by apply list_elem_of_filter.
Qed.

Lemma raws_of_nil u (l : list Score.t) :
  raws_of u l = [] ↔ u ∉ (Score.user <$> l).
Proof.
  split.
  - intros Hnil (s & -> & Hs)%list_elem_of_fmap.
    assert (Score.score s ∈ raws_of (Score.user s) l) as Hin
      by (apply elem_of_raws_of; by exists s).
    rewrite Hnil in Hin. by apply elem_of_nil in Hin.
  - intros Hu. destruct (raws_of u l) as [|x xs] eqn:Hx; [done|].
    assert (x ∈ raws_of u l) as (s & Hs & <- & _)%elem_of_raws_of
      by (rewrite Hx; apply list_elem_of_here).
    destruct Hu. apply list_elem_of_fmap. by exists s.
Qed.

Lemma rebuild_user_scores_is_Some db g st u :
  is_Some (rebuild_user_scores db g st !! u)
  ↔ u ∈ (Score.user <$> scores_of_game db g).
Proof.
  rewrite rebuild_user_scores_lookup, <-not_eq_None_Some, best_with_None, raws_of_nil.
  split; [apply dec_stable|by intros ??].
Qed.

(** X19.  After [rebuild_leaderboard] of an existing game, the users
    [get_user_rank] answers for are exactly the users with a score record in
    that game. *)
Theorem rebuild_ranks_exactly_the_players db r (g u : Z) :
  is_Some (Game_objects db !! g) →
  is_Some (get_user_rank db (rebuild_leaderboard db r g) g u)
  ↔ u ∈ (Score.user <$> scores_of_game db g).
Proof.
  intros [game Hg].
  assert (is_Some (Redis.zscore (get_leaderboard_key g) u (rebuild_leaderboard db r g))
          ↔ u ∈ (Score.user <$> scores_of_game db g)) as Hiff.
  { rewrite (rebuild_leaderboard_closed_form db r g game Hg).
    unfold Redis.zscore. rewrite rebuilt_game_key, lookup_fmap, fmap_is_Some.
    apply rebuild_user_scores_is_Some. }
  rewrite <-Hiff. split.
  - intros [info (? & ? & key & _ & _ & Hkey & _)%get_user_rank_Some].
    by exists key.
  - apply get_user_rank_answers. by exists game.
Qed.

Lemma rebuild_ranks_exactly_the_players_witness :
  is_Some (Game_objects Scenario.stC.1 !! Scenario.G)
  ∧ (is_Some (get_user_rank Scenario.stC.1
                (rebuild_leaderboard Scenario.stC.1 Scenario.stC.2 Scenario.G)
                Scenario.G Scenario.U1)
     ↔ Scenario.U1 ∈ (Score.user <$> scores_of_game Scenario.stC.1 Scenario.G)).
Proof.
  assert (is_Some (Game_objects Scenario.stC.1 !! Scenario.G)) as H
    by (vm_compute; eexists; reflexivity).
  split; [exact H|].
  exact (rebuild_ranks_exactly_the_players Scenario.stC.1 Scenario.stC.2
           Scenario.G Scenario.U1 H).
Defined.

(** X20.  After [rebuild_leaderboard] of an existing game, the entry of
    every user with a record in the game converts back to a score that the
    user did submit to the game and that is at least as good, under the
    score type of the game, as every score the user submitted to it. *)
Theorem rebuild_stores_best_score db r (g u : Z) game :
  Game_objects db !! g = Some game →
  u ∈ (Score.user <$> scores_of_game db g) →
  ∃ best,
    (λ k, _convert_score_from_redis k (Game.score_type game))
      <$> Redis.zscore (get_leaderboard_key g) u (rebuild_leaderboard db r g)
    = Some best
    ∧ (∃ s, s ∈ Score_objects db ∧ Score.game s = g ∧ Score.user s = u
            ∧ Score.score s = best)
    ∧ (∀ s, s ∈ Score_objects db → Score.game s = g → Score.user s = u →
            at_least_as_good (Game.score_type game) best (Score.score s)).
Proof.
  intros Hg Hu.
  apply rebuild_user_scores_is_Some with (st := Game.score_type game) in Hu
    as [best Hbest].
  exists best. split; [|].
  - rewrite (rebuild_leaderboard_closed_form db r g game Hg).
    unfold Redis.zscore. rewrite rebuilt_game_key, lookup_fmap, Hbest. simpl.
    f_equal. unfold _convert_score_from_redis, _convert_score_for_redis.
    destruct (String.eqb (Game.score_type game) "highest"); lia.
  - rewrite rebuild_user_scores_lookup in Hbest.
    apply best_with_spec in Hbest as [Hin Hall]. split.
    + apply elem_of_raws_of in Hin as (s & Hs & Hus & Hss).
      apply list_elem_of_filter in Hs as [Hgs Hs]. by exists s.
    + intros s Hs Hgs Hus. apply Hall, elem_of_raws_of.
      exists s. split; [|done]. by apply list_elem_of_filter.
Qed.

Lemma rebuild_stores_best_score_witness :
  Game_objects Scenario.stC.1 !! Scenario.G = Some (Game.mk "game" true "highest")
  ∧ Scenario.U1 ∈ (Score.user <$> scores_of_game Scenario.stC.1 Scenario.G)
  ∧ ∃ best,
      (λ k, _convert_score_from_redis k "highest")
        <$> Redis.zscore (get_leaderboard_key Scenario.G) Scenario.U1
              (rebuild_leaderboard Scenario.stC.1 Scenario.stC.2 Scenario.G)
      = Some best
      ∧ (∃ s, s ∈ Score_objects Scenario.stC.1 ∧ Score.game s = Scenario.G
              ∧ Score.user s = Scenario.U1 ∧ Score.score s = best)
      ∧ (∀ s, s ∈ Score_objects Scenario.stC.1 → Score.game s = Scenario.G →
              Score.user s = Scenario.U1 →
              at_least_as_good "highest" best (Score.score s)).
Proof.
  assert (Game_objects Scenario.stC.1 !! Scenario.G
          = Some (Game.mk "game" true "highest")) as H1 by (vm_compute; reflexivity).
  assert (Scenario.U1 ∈ (Score.user <$> scores_of_game Scenario.stC.1 Scenario.G))
    as H2 by (apply (bool_decide_unpack _); vm_compute; exact I).
  split; [exact H1|]. split; [exact H2|].
  exact (rebuild_stores_best_score Scenario.stC.1 Scenario.stC.2 Scenario.G
           Scenario.U1 _ H1 H2).
Defined.

(** [rebuild_leaderboard] of an existing game also rewrites the global
    index: the global entry of every user with a record in the game becomes
    the key the game index holds for that user converted back, that is the
    user's best raw score in the rebuilt game. *)
Theorem rebuild_writes_global_entries db r (g u : Z) game :
  Game_objects db !! g = Some game →
  u ∈ (Score.user <$> scores_of_game db g) →
  Redis.zscore get_global_leaderboard_key u (rebuild_leaderboard db r g)
  = (λ k, _convert_score_from_redis k (Game.score_type game))
      <$> Redis.zscore (get_leaderboard_key g) u (rebuild_leaderboard db r g).
Proof.
  intros Hg Hu.
  apply rebuild_user_scores_is_Some with (st := Game.score_type game) in Hu
    as [best Hbest].
  rewrite (rebuild_leaderboard_closed_form db r g game Hg).
  unfold Redis.zscore.
  rewrite rebuilt_game_key, rebuilt_global_key, lookup_fmap, Hbest. simpl.
  rewrite (lookup_union_Some_l _ _ _ _ Hbest). f_equal.
  unfold _convert_score_from_redis, _convert_score_for_redis.
  destruct (String.eqb (Game.score_type game) "highest"); lia.
Qed.

Lemma rebuild_writes_global_entries_witness :
  Game_objects Scenario.stC.1 !! Scenario.G = Some (Game.mk "game" true "highest")
  ∧ Scenario.U1 ∈ (Score.user <$> scores_of_game Scenario.stC.1 Scenario.G)
  ∧ Redis.zscore get_global_leaderboard_key Scenario.U1
      (rebuild_leaderboard Scenario.stC.1 Scenario.stC.2 Scenario.G)
    = (λ k, _convert_score_from_redis k "highest")
        <$> Redis.zscore (get_leaderboard_key Scenario.G) Scenario.U1
              (rebuild_leaderboard Scenario.stC.1 Scenario.stC.2 Scenario.G).
Proof.
  assert (Game_objects Scenario.stC.1 !! Scenario.G
          = Some (Game.mk "game" true "highest")) as H1 by (vm_compute; reflexivity).
  assert (Scenario.U1 ∈ (Score.user <$> scores_of_game Scenario.stC.1 Scenario.G))
    as H2 by (apply (bool_decide_unpack _); vm_compute; exact I).
  split; [exact H1|]. split; [exact H2|].
  exact (rebuild_writes_global_entries Scenario.stC.1 Scenario.stC.2 Scenario.G
           Scenario.U1 _ H1 H2).
Defined.

(** For an existing game, clearing the leaderboard before rebuilding
    it changes nothing: the rebuild leaves the same state either way. *)
Theorem rebuild_absorbs_clear db r (g : Z) :
  is_Some (Game_objects db !! g) →
  rebuild_leaderboard db (clear_leaderboard g r) g = rebuild_leaderboard db r g.
Proof.
  intros [game Hg]. unfold rebuild_leaderboard. rewrite Hg.
  unfold clear_leaderboard, Redis.delete. by rewrite delete_delete_eq.
Qed.

Lemma rebuild_absorbs_clear_witness :
  is_Some (Game_objects Scenario.stC.1 !! Scenario.G)
  ∧ rebuild_leaderboard Scenario.stC.1 (clear_leaderboard Scenario.G Scenario.stC.2)
      Scenario.G
    = rebuild_leaderboard Scenario.stC.1 Scenario.stC.2 Scenario.G.
Proof.
  assert (is_Some (Game_objects Scenario.stC.1 !! Scenario.G)) as H
    by (vm_compute; eexists; reflexivity).
  split; [exact H|].
  exact (rebuild_absorbs_clear Scenario.stC.1 Scenario.stC.2 Scenario.G H).
Defined.

(** X21.  [rebuild_leaderboard] of one game leaves the leaderboard of every
    other game as it was: same index, same pages. *)
Theorem rebuild_frames_other_games db r (g g' : Z) :
  g' ≠ g →
  rebuild_leaderboard db r g !! get_leaderboard_key g' = r !! get_leaderboard_key g'
  ∧ ∀ start end_,
      get_leaderboard db (rebuild_leaderboard db r g) g' start end_
      = get_leaderboard db r g' start end_.
Proof.
  intros Hne.
  assert (rebuild_leaderboard db r g !! get_leaderboard_key g'
          = r !! get_leaderboard_key g') as Hkey.
  { destruct (Game_objects db !! g) as [game|] eqn:Hg.
    - rewrite (rebuild_leaderboard_closed_form db r g game Hg).
      apply rebuilt_lookup_other; [|apply game_key_ne_global].
      intros Heq. by apply game_key_inj in Heq.
    - unfold rebuild_leaderboard. by rewrite Hg. }
  split; [done|]. intros start end_.
  unfold get_leaderboard, Redis.zrevrange, Redis.zset_at. by rewrite Hkey.
Qed.

Lemma rebuild_frames_other_games_witness :
  Scenario.G2 ≠ Scenario.G
  ∧ rebuild_leaderboard Scenario.stE.1 Scenario.stE.2 Scenario.G
      !! get_leaderboard_key Scenario.G2
    = Scenario.stE.2 !! get_leaderboard_key Scenario.G2.
Proof.
  assert (Scenario.G2 ≠ Scenario.G) as H by (vm_compute; discriminate).
  split; [exact H|].
  exact (proj1 (rebuild_frames_other_games Scenario.stE.1 Scenario.stE.2
                  Scenario.G Scenario.G2 H)).
Defined.

(** X22.  After the loop of the admin action over a list of game ids, the
    index of every listed, existing game is the keep-best replay of the
    score log of that game, in whatever order the ids are listed and even
    when an id is listed twice. *)
Theorem admin_rebuild_rebuilds_every_listed_game db r (game_ids : list Z)
    (g : Z) game p :
  g ∈ game_ids →
  Game_objects db !! g = Some game →
  policy_of (Game.score_type game) = Some p →
  Redis.zset_at (get_leaderboard_key g)
    (rebuild_leaderboard_for_selected_games db r game_ids)
  = replay_keep_best p (log_of_game db g).
Proof.
  intros Hin Hg Hp. unfold rebuild_leaderboard_for_selected_games.
  assert (∀ r', Redis.zset_at (get_leaderboard_key g) (rebuild_leaderboard db r' g)
                = replay_keep_best p (log_of_game db g)) as Hone.
  { intros r'.
    rewrite (rebuild_leaderboard_closed_form db r' g game Hg), rebuilt_game_key.
    apply map_eq. intros u.
    rewrite lookup_fmap, rebuild_user_scores_lookup.
    rewrite (replay_keep_best_lookup (Game.score_type game)) by done.
    unfold log_of_game. by rewrite raws_of_reverse, best_with_reverse. }
  assert (∀ l r',
            g ∈ l ∨ Redis.zset_at (get_leaderboard_key g) r'
                    = replay_keep_best p (log_of_game db g) →
            Redis.zset_at (get_leaderboard_key g)
              (foldl (λ r game_id, rebuild_leaderboard db r game_id) r' l)
            = replay_keep_best p (log_of_game db g)) as Hloop.
  { induction l as [|g' l IH]; intros r' Hr'.
    - destruct Hr' as [Hnil|Hr']; [by apply elem_of_nil in Hnil|done].
    - simpl. apply IH. destruct (decide (g' = g)) as [->|Hne].
      + right. apply Hone.
      + destruct Hr' as [Hl|Hr'].
        * apply elem_of_cons in Hl as [->|Hl]; [done|by left].
        * right. rewrite <-Hr'. unfold Redis.zset_at. f_equal.
          destruct (Game_objects db !! g') as [game'|] eqn:Hg'.
          -- rewrite (rebuild_leaderboard_closed_form db r' g' game' Hg').
             apply rebuilt_lookup_other; [|apply game_key_ne_global].
             intros Heq. apply game_key_inj in Heq. congruence.
          -- unfold rebuild_leaderboard. by rewrite Hg'. }
  apply Hloop. by left.
Qed.

Lemma admin_rebuild_witness :
  Scenario.G ∈ [Scenario.G2; Scenario.G; Scenario.G2]
  ∧ Game_objects Scenario.stD.1 !! Scenario.G = Some (Game.mk "game" true "highest")
  ∧ policy_of "highest" = Some HighestWins
  ∧ Redis.zset_at (get_leaderboard_key Scenario.G)
      (rebuild_leaderboard_for_selected_games Scenario.stD.1 Scenario.stD.2
         [Scenario.G2; Scenario.G; Scenario.G2])
    = replay_keep_best HighestWins (log_of_game Scenario.stD.1 Scenario.G).
Proof.
  assert (Scenario.G ∈ [Scenario.G2; Scenario.G; Scenario.G2]) as H1
    by (apply (bool_decide_unpack _); vm_compute; exact I).
  assert (Game_objects Scenario.stD.1 !! Scenario.G
          = Some (Game.mk "game" true "highest")) as H2 by (vm_compute; reflexivity).
  assert (policy_of "highest" = Some HighestWins) as H3 by reflexivity.
  split; [exact H1|]. split; [exact H2|]. split; [exact H3|].
  exact (admin_rebuild_rebuilds_every_listed_game Scenario.stD.1 Scenario.stD.2
           _ Scenario.G _ _ H1 H2 H3).
Defined.

End rebuilding.

(** ** The models *)

Section models.
Implicit Types (db : Database).

#[local] Existing Instance score_desc_total.
#[local] Existing Instance score_desc_trans.
#[local] Existing Instance score_asc_total.
#[local] Existing Instance score_asc_trans.

(** X23.  The two normalizers of the code base, [Game.get_redis_score] and
    [LeaderboardService._convert_score_for_redis], compute the same key for
    the three score types of the model, and [Game.redis_key] is the key of
    the service; for any other score type they disagree on every score but
    zero. *)
Theorem Game_get_redis_score_agrees (self : Game.t) (id : Z) :
  (is_Some (policy_of (Game.score_type self)) →
   ∀ x, Game_get_redis_score self x
        = _convert_score_for_redis x (Game.score_type self))
  ∧ (policy_of (Game.score_type self) = None →
     ∀ x, x ≠ 0 →
          Game_get_redis_score self x
          ≠ _convert_score_for_redis x (Game.score_type self))
  ∧ Game_redis_key id = get_leaderboard_key id.
Proof.
  unfold policy_of, Game_get_redis_score, _convert_score_for_redis.
  split; [|split; [|done]].
  - intros [p Hp] x. destruct (String.eqb_spec (Game.score_type self) "highest") as [->|_];
      [done|].
    destruct (String.eqb (Game.score_type self) "lowest"); [done|].
    by destruct (String.eqb (Game.score_type self) "time").
  - intros Hp x Hx.
    destruct (String.eqb (Game.score_type self) "highest"); [done|].
    destruct (String.eqb (Game.score_type self) "lowest"); [done|].
    destruct (String.eqb (Game.score_type self) "time"); [done|].
    simpl. lia.
Qed.

Lemma Game_get_redis_score_agrees_witness :
  is_Some (policy_of "time")
  ∧ Game_get_redis_score (Game.mk "race" true "time") 975
    = _convert_score_for_redis 975 "time"
  ∧ policy_of "fastest" = None
  ∧ 975 ≠ 0
  ∧ Game_get_redis_score (Game.mk "race" true "fastest") 975
    ≠ _convert_score_for_redis 975 "fastest".
Proof.
  assert (is_Some (policy_of "time")) as H1 by (eexists; reflexivity).
  assert (policy_of "fastest" = None) as H2 by reflexivity.
  assert (975 ≠ 0) as H3 by lia.
  split; [exact H1|]. split.
  { exact (proj1 (Game_get_redis_score_agrees (Game.mk "race" true "time") 0) H1 975). }
  split; [exact H2|]. split; [exact H3|].
  exact (proj1 (proj2 (Game_get_redis_score_agrees (Game.mk "race" true "fastest") 0))
           H2 975 H3).
Defined.

Lemma head_merge_sort_elem (R : relation Score.t) `{!RelDecision R}
    (l : list Score.t) b :
  head (merge_sort R l) = Some b → b ∈ l.
Proof.
  intros Hb. rewrite <-(merge_sort_Permutation R l).
  by apply head_Some_elem_of.
Qed.

Lemma head_merge_sort_None (R : relation Score.t) `{!RelDecision R}
    (l : list Score.t) :
  head (merge_sort R l) = None ↔ l = [].
Proof.
  rewrite head_None. split.
  - intros Hnil. apply Permutation_nil_r. by rewrite <-(merge_sort_Permutation R l), Hnil.
  - by intros ->.
Qed.

(** X24.  For an existing game, [Score.get_user_best_score] returns [None]
    exactly when the user has no score record in the game; otherwise it
    returns one of the user's records of that game whose score is at least
    as good, under the score type of the game, as the score of every record
    the user has in it. *)
Theorem Score_get_user_best_score_spec db (u g : Z) game :
  Game_objects db !! g = Some game →
  (Score_get_user_best_score db u g = None
   ↔ ∀ s, s ∈ Score_objects db → Score.user s = u → Score.game s ≠ g)
  ∧ ∀ b, Score_get_user_best_score db u g = Some b →
         b ∈ Score_objects db ∧ Score.user b = u ∧ Score.game b = g
         ∧ ∀ s, s ∈ Score_objects db → Score.user s = u → Score.game s = g →
                at_least_as_good (Game.score_type game)
                  (Score.score b) (Score.score s).
Proof.
  intros Hg. unfold Score_get_user_best_score, at_least_as_good. rewrite Hg.
  set (l := filter _ (Score_objects db)).
  assert (∀ s, s ∈ l ↔ (Score.user s = u ∧ Score.game s = g) ∧ s ∈ Score_objects db)
    as Hl by (intros s; unfold l; by rewrite list_elem_of_filter).
  assert (l = [] ↔ ∀ s, s ∈ Score_objects db → Score.user s = u → Score.game s ≠ g)
    as Hnil.
  { split.
    - intros Hnil s Hs Hu Hgs.
      assert (s ∈ l) as Hin by (by apply Hl). rewrite Hnil in Hin.
      by apply elem_of_nil in Hin.
    - intros Hno. destruct l as [|s l'] eqn:Heq; [done|].
      assert (s ∈ s :: l') as Hin by apply list_elem_of_here.
      apply Hl in Hin as [[Hu Hgs] Hs]. by destruct (Hno s Hs Hu). }
  destruct (String.eqb (Game.score_type game) "highest").
  - split; [by rewrite head_merge_sort_None|].
    intros b Hb. pose proof (head_merge_sort_elem _ _ _ Hb) as [[Hu Hgb] Hin]%Hl.
    split; [done|]. split; [done|]. split; [done|].
    intros s Hs Hus Hgs.
    destruct (head_merge_sort score_desc l s) as (b' & Hb' & Hle);
      [by apply Hl|].
    rewrite Hb in Hb'. injection Hb' as <-.
    destruct Hle as [->|Hle]; [done|apply Hle].
  - split; [by rewrite head_merge_sort_None|].
    intros b Hb. pose proof (head_merge_sort_elem _ _ _ Hb) as [[Hu Hgb] Hin]%Hl.
    split; [done|]. split; [done|]. split; [done|].
    intros s Hs Hus Hgs.
    destruct (head_merge_sort score_asc l s) as (b' & Hb' & Hle);
      [by apply Hl|].
    rewrite Hb in Hb'. injection Hb' as <-.
    destruct Hle as [->|Hle]; [done|apply Hle].
Qed.

Lemma Score_get_user_best_score_spec_witness :
  Game_objects Scenario.stC.1 !! Scenario.G = Some (Game.mk "game" true "highest")
  ∧ ∀ b, Score_get_user_best_score Scenario.stC.1 Scenario.U1 Scenario.G = Some b →
         b ∈ Score_objects Scenario.stC.1 ∧ Score.user b = Scenario.U1
         ∧ Score.game b = Scenario.G
         ∧ ∀ s, s ∈ Score_objects Scenario.stC.1 → Score.user s = Scenario.U1 →
                Score.game s = Scenario.G →
                at_least_as_good "highest" (Score.score b) (Score.score s).
Proof.
  assert (Game_objects Scenario.stC.1 !! Scenario.G
          = Some (Game.mk "game" true "highest")) as H by (vm_compute; reflexivity).
  split; [exact H|].
  exact (proj2 (Score_get_user_best_score_spec Scenario.stC.1 Scenario.U1
                  Scenario.G _ H)).
Defined.

(** X25.  [Score.get_user_score_history] with a limit of zero does not
    return zero rows but the whole history, as without a limit; with a
    positive limit it returns the newest rows, at most [limit] of them; a
    negative limit raises. *)
Theorem Score_get_user_score_history_limit db (u g : Z) :
  Score_get_user_score_history db u g (Some 0)
  = Score_get_user_score_history db u g None
  ∧ (∀ n, 0 < n →
       ∃ l full,
         Score_get_user_score_history db u g (Some n) = Ok l
         ∧ Score_get_user_score_history db u g None = Ok full
         ∧ l `prefix_of` full
         ∧ Z.of_nat (length l) = Z.min n (Z.of_nat (length full)))
  ∧ (∀ n, n < 0 → Score_get_user_score_history db u g (Some n) = ValueError).
Proof.
  unfold Score_get_user_score_history, queryset_slice.
  split; [done|]. split.
  - intros n Hn. destruct (Z.eqb_spec n 0); [lia|].
    destruct (Z.ltb_spec n 0); [lia|]. simpl.
    eexists _, _. split; [done|]. split; [done|].
    rewrite Z.sub_0_r, drop_0. split; [apply prefix_take|].
    rewrite length_take. lia.
  - intros n Hn. destruct (Z.eqb_spec n 0); [lia|].
    by destruct (Z.ltb_spec n 0); [|lia].
Qed.

End models.

(** ** The views *)

Section views.
Implicit Types (r : gmap string (gmap Z Z)) (db : Database).

Lemma is_valid_iff db (g x : Z) :
  ScoreSubmissionSerializer_is_valid db g x = true
  ↔ 0 ≤ x < 10 ^ 12
    ∧ ∃ game, Game_objects db !! g = Some game ∧ Game.is_active game = true.
Proof.
  unfold ScoreSubmissionSerializer_is_valid.
  rewrite !andb_true_iff, Z.leb_le, Z.ltb_lt.
  destruct (Game_objects db !! g) as [game|].
  - split.
    + intros [[??] ?]. split; [lia|]. by exists game.
    + intros [? (game' & [= <-] & ?)]. split; [split; lia|done].
  - split; [by intros [_ ?]|by intros [_ (? & ? & _)]].
Qed.


Lemma served_post_not_blocked hits db r (u g x : Z) :
  hits < 30 →
  ScoreSubmissionView_post hits db r u g x
  = ((post db r u g x).1, Answered (post db r u g x).2).
Proof.
  intros Hh. unfold ScoreSubmissionView_post, ratelimit_blocks.
  destruct (Z.ltb_spec 30 (hits + 1)); [lia|].
  by destruct (post db r u g x) as [[db' r'] resp].
Qed.



(** An accepted submission, in the method body. *)
Lemma post_body_accepts db r (u g x : Z) game :
  0 ≤ x < 10 ^ 12 →
  Game_objects db !! g = Some game →
  Game.is_active game = true →
  ∃ k n,
    post db r u g x
    = (mkDatabase (Game_objects db) (User_objects db)
         (Score.mk u g x :: Score_objects db),
       update_user_score g u x (Game.score_type game) r,
       Http201 x false (Some (k, n)))
    ∧ 1 ≤ k ≤ n.
Proof.
  intros Hx Hg Hact.
  assert (ScoreSubmissionSerializer_is_valid db g x = true) as Hv.
  { apply is_valid_iff. split; [done|]. by exists game. }
  destruct (post db r u g x) as [[db' r'] resp] eqn:Hpost.
  pose proof Hpost as Hpost'.
  unfold post in Hpost. rewrite Hv, Hg in Hpost. simpl in Hpost.
  unfold Score_objects_create, Score_update_redis_leaderboard in Hpost.
  simpl in Hpost. rewrite Hg in Hpost.
  set (db1 := mkDatabase _ _ _) in Hpost.
  set (r1 := update_user_score _ _ _ _ _) in Hpost.
  assert (is_Some (get_user_rank db1 r1 g u)) as [info Hinfo].
  { apply get_user_rank_answers; [by exists game|].
    unfold Redis.zscore, r1.
    rewrite update_user_score_game_key, lookup_insert_eq. by eexists. }
  rewrite Hinfo in Hpost. simpl in Hpost.
  injection Hpost as <- <- <-.
  assert ((post db r u g x).2 = Http201 x
            match Score_get_user_best_score db1 u g with
            | Some previous_best =>
                if String.eqb (Game.score_type game) "highest"
                then bool_decide (Score.score previous_best < x)
                else bool_decide (x < Score.score previous_best)
            | None => true
            end (Some (user_rank info, total_players info))) as Hresp
    by (by rewrite Hpost').
  apply post_never_personal_best in Hresp. rewrite Hresp.
  exists (user_rank info), (total_players info). split; [done|].
  apply get_user_rank_Some in Hinfo as (game' & k & key & _ & Hk & _ & ->).
  simpl. apply position_Some in Hk as [Hk _]. rewrite descending_length in Hk.
  unfold Redis.zcard. lia.
Qed.

(** X27.  A submission under the rate limit (fewer than 30 POSTs of the
    user counted in the current minute) that passes validation appends
    exactly the submitted row to the score log, writes the score with
    [update_user_score], is answered 201 with the score echoed, and always
    reports a rank, between 1 and the number of players; its
    [is_personal_best] flag is false. *)
Theorem post_accepts_and_ranks (hits : Z) db r (u g x : Z) game :
  hits < 30 →
  0 ≤ x < 10 ^ 12 →
  Game_objects db !! g = Some game →
  Game.is_active game = true →
  ∃ k n,
    ScoreSubmissionView_post hits db r u g x
    = (mkDatabase (Game_objects db) (User_objects db)
         (Score.mk u g x :: Score_objects db),
       update_user_score g u x (Game.score_type game) r,
       Answered (Http201 x false (Some (k, n))))
    ∧ 1 ≤ k ≤ n.
Proof.
  intros Hh Hx Hg Hact.
  destruct (post_body_accepts db r u g x game Hx Hg Hact) as (k & n & Hpost & Hk).
  exists k, n. split; [|done].
  rewrite served_post_not_blocked by done. by rewrite Hpost.
Qed.

Lemma post_accepts_and_ranks_witness :
  0 < 30
  ∧ 0 ≤ 1000 < 10 ^ 12
  ∧ Game_objects (Scenario.db0 "highest") !! Scenario.G
    = Some (Game.mk "game" true "highest")
  ∧ Game.is_active (Game.mk "game" true "highest") = true
  ∧ ∃ k n,
      ScoreSubmissionView_post 0 (Scenario.db0 "highest") ∅ Scenario.U1 Scenario.G 1000
      = (mkDatabase (Game_objects (Scenario.db0 "highest"))
           (User_objects (Scenario.db0 "highest"))
           (Score.mk Scenario.U1 Scenario.G 1000
              :: Score_objects (Scenario.db0 "highest")),
         update_user_score Scenario.G Scenario.U1 1000 "highest" ∅,
         Answered (Http201 1000 false (Some (k, n))))
      ∧ 1 ≤ k ≤ n.
Proof.
  assert (0 < 30) as H0 by lia.
  assert (0 ≤ 1000 < 10 ^ 12) as H1 by (split; [lia|reflexivity]).
  assert (Game_objects (Scenario.db0 "highest") !! Scenario.G
          = Some (Game.mk "game" true "highest")) as H2 by (vm_compute; reflexivity).
  assert (Game.is_active (Game.mk "game" true "highest") = true) as H3
    by reflexivity.
  split; [exact H0|]. split; [exact H1|]. split; [exact H2|]. split; [exact H3|].
  exact (post_accepts_and_ranks 0 (Scenario.db0 "highest") ∅ Scenario.U1 Scenario.G
           1000 _ H0 H1 H2 H3).
Defined.

(** X28.  For a page number and a page size of at least 1 whose window
    (start and end index) lies in the signed 64-bit range Redis accepts,
    [LeaderboardView.get] answers 404 exactly when the game is missing;
    otherwise the page has at most [min(page_size, 100)] rows, every rank
    on it lies in the window of that page, and [has_next] is set exactly
    when the page is full. *)
Theorem LeaderboardView_get_page_bounds db r (g page page_size : Z) :
  1 ≤ page → 1 ≤ page_size →
  Redis.int64 ((page - 1) * Z.min page_size 100) →
  Redis.int64 ((page - 1) * Z.min page_size 100 + Z.min page_size 100 - 1) →
  match LeaderboardView_get db r g (Some page) (Some page_size) with
  | Reply200 body =>
      is_Some (Game_objects db !! g)
      ∧ lp_page_size body = Z.min page_size 100
      ∧ Z.of_nat (length (lp_leaderboard body)) ≤ lp_page_size body
      ∧ (∀ row, row ∈ lp_leaderboard body →
                (page - 1) * lp_page_size body < rank row
                ≤ page * lp_page_size body)
      ∧ (lp_has_next body = true
         ↔ Z.of_nat (length (lp_leaderboard body)) = lp_page_size body)
  | Reply400 => False
  | Reply404 => Game_objects db !! g = None
  end.
Proof.
  intros Hp Hps _ _. unfold LeaderboardView_get.
  destruct (Game_objects db !! g) as [game|] eqn:Hg; [|done]. simpl.
  set (ps := Z.min page_size 100).
  assert (1 ≤ ps) as Hps' by (subst ps; lia).
  assert (0 ≤ (page - 1) * ps) as Hstart by nia.
  assert (0 ≤ (page - 1) * ps + ps - 1) as Hend by lia.
  destruct (page_bounds db r g _ _ Hstart Hend) as [Hlen Hranks].
  split; [by exists game|]. split; [done|]. split; [lia|]. split.
  - intros row Hrow. specialize (Hranks row Hrow). nia.
  - apply bool_decide_eq_true.
Qed.

Lemma LeaderboardView_get_page_bounds_witness :
  1 ≤ 2 ∧ 1 ≤ 2
  ∧ Redis.int64 ((2 - 1) * Z.min 2 100)
  ∧ Redis.int64 ((2 - 1) * Z.min 2 100 + Z.min 2 100 - 1)
  ∧ match LeaderboardView_get Scenario.stA.1 Scenario.stA.2 Scenario.G
            (Some 2) (Some 2) with
    | Reply200 body =>
        is_Some (Game_objects Scenario.stA.1 !! Scenario.G)
        ∧ lp_page_size body = Z.min 2 100
        ∧ Z.of_nat (length (lp_leaderboard body)) ≤ lp_page_size body
        ∧ (∀ row, row ∈ lp_leaderboard body →
                  (2 - 1) * lp_page_size body < rank row ≤ 2 * lp_page_size body)
        ∧ (lp_has_next body = true
           ↔ Z.of_nat (length (lp_leaderboard body)) = lp_page_size body)
    | Reply400 => False
    | Reply404 => Game_objects Scenario.stA.1 !! Scenario.G = None
    end.
Proof.
  assert (1 ≤ 2) as H by lia.
  assert (Redis.int64 ((2 - 1) * Z.min 2 100)) as I1
    by (vm_compute; split; [discriminate|reflexivity]).
  assert (Redis.int64 ((2 - 1) * Z.min 2 100 + Z.min 2 100 - 1)) as I2
    by (vm_compute; split; [discriminate|reflexivity]).
  split; [exact H|]. split; [exact H|]. split; [exact I1|]. split; [exact I2|].
  exact (LeaderboardView_get_page_bounds Scenario.stA.1 Scenario.stA.2
           Scenario.G 2 2 H H I1 I2).
Defined.

(** X29.  With [page_size=0], [LeaderboardView.get] lists every ranked user
    whose account resolves, on any page: the window becomes 0 to -1, which
    Redis reads as the whole index, and the cap of 100 rows does not
    apply. *)
Theorem LeaderboardView_get_page_size_zero db r (g : Z) (page : option Z)
    game (u key : Z) user :
  Game_objects db !! g = Some game →
  Redis.zscore (get_leaderboard_key g) u r = Some key →
  User_objects db !! u = Some user →
  ∃ body row,
    LeaderboardView_get db r g page (Some 0) = Reply200 body
    ∧ row ∈ lp_leaderboard body ∧ user_id row = u.
Proof.
  intros Hg Hkey Huser. unfold LeaderboardView_get. rewrite Hg. simpl.
  rewrite Z.mul_0_r. simpl.
  apply elem_of_descending, list_elem_of_lookup_1 in Hkey as [i Hi].
  eexists _, (row_of (Game.score_type game) (0 + 1 + Z.of_nat i) (u, key) user).
  split; [done|]. split; [|done]. simpl.
  apply (get_leaderboard_elem db r g 0 (-1) game _ Hg).
  exists i, (u, key), user. split; [|done].
  unfold Redis.zrevrange. by rewrite range_by_rank_all.
Qed.

Lemma LeaderboardView_get_page_size_zero_witness :
  Game_objects Scenario.stA.1 !! Scenario.G = Some (Game.mk "game" true "highest")
  ∧ Redis.zscore (get_leaderboard_key Scenario.G) Scenario.U2 Scenario.stA.2
    = Some (-25000)
  ∧ User_objects Scenario.stA.1 !! Scenario.U2 = Some (User.mk "u2@example.com" "Bob")
  ∧ ∃ body row,
      LeaderboardView_get Scenario.stA.1 Scenario.stA.2 Scenario.G (Some 7) (Some 0)
      = Reply200 body
      ∧ row ∈ lp_leaderboard body ∧ user_id row = Scenario.U2.
Proof.
  assert (Game_objects Scenario.stA.1 !! Scenario.G
          = Some (Game.mk "game" true "highest")) as H1 by (vm_compute; reflexivity).
  assert (Redis.zscore (get_leaderboard_key Scenario.G) Scenario.U2 Scenario.stA.2
          = Some (-25000)) as H2 by (vm_compute; reflexivity).
  assert (User_objects Scenario.stA.1 !! Scenario.U2
          = Some (User.mk "u2@example.com" "Bob")) as H3 by (vm_compute; reflexivity).
  split; [exact H1|]. split; [exact H2|]. split; [exact H3|].
  exact (LeaderboardView_get_page_size_zero Scenario.stA.1 Scenario.stA.2
           Scenario.G (Some 7) _ Scenario.U2 _ _ H1 H2 H3).
Defined.

(** X30.  [ScoreHistoryView.get], for an existing game and a page size of
    at least 1: a page number below 1 makes the view raise (the slice of
    the query set gets a negative bound); every record of the user's
    history for the game is served, the record at position [i] on page
    [i / size + 1] at offset [i mod size], where [size] is
    [min(page_size, 100)]; and a served page never has more than [size]
    rows, each the record of the history at its offset from the start of
    the page. *)
Theorem ScoreHistoryView_get_pages db (u g page_size : Z) game :
  Game_objects db !! g = Some game →
  1 ≤ page_size →
  let size := Z.min page_size 100 in
  let history :=
    filter (λ s, Score.user s = u ∧ Score.game s = g) (Score_objects db) in
  (∀ page, page ≤ 0 →
     ScoreHistoryView_get db u (Some g) (Some page) (Some page_size) = ValueError)
  ∧ (∀ (i : nat) s, history !! i = Some s →
       ∃ body,
         ScoreHistoryView_get db u (Some g) (Some (Z.of_nat i / size + 1))
           (Some page_size) = Ok (Reply200 body)
         ∧ hp_scores body !! Z.to_nat (Z.of_nat i mod size) = Some s)
  ∧ (∀ page body,
       ScoreHistoryView_get db u (Some g) (Some page) (Some page_size)
       = Ok (Reply200 body) →
       Z.of_nat (length (hp_scores body)) ≤ size
       ∧ ∀ (j : nat) s, hp_scores body !! j = Some s →
                        history !! (Z.to_nat ((page - 1) * size) + j)%nat = Some s).
Proof.
  intros Hg Hps size history.
  assert (1 ≤ size) as Hsize by (subst size; lia).
  unfold ScoreHistoryView_get, queryset_slice. rewrite Hg. simpl.
  fold size. fold history.
  split; [|split].
  - intros page Hpage.
    destruct (Z.ltb_spec ((page - 1) * size) 0) as [_|Hge]; [done|nia].
  - intros i s Hi.
    pose proof (Z.div_mod (Z.of_nat i) size ltac:(lia)) as Hdm.
    pose proof (Z.mod_pos_bound (Z.of_nat i) size ltac:(lia)) as Hmod.
    assert (0 ≤ Z.of_nat i / size) as Hdiv by (apply Z.div_pos; lia).
    replace (Z.of_nat i / size + 1 - 1) with (Z.of_nat i / size) by lia.
    destruct (Z.ltb_spec (Z.of_nat i / size * size) 0); [nia|].
    destruct (Z.ltb_spec (Z.of_nat i / size * size + size) 0); [nia|].
    simpl. eexists. split; [done|]. simpl.
    apply lookup_take_Some. split; [|lia].
    rewrite lookup_drop. rewrite <-Hi. f_equal. nia.
  - intros page body.
    destruct (Z.ltb_spec ((page - 1) * size) 0); [done|].
    destruct (Z.ltb_spec ((page - 1) * size + size) 0); [done|].
    simpl. intros [= <-]. simpl. split.
    + rewrite length_take. lia.
    + intros j s [Hj _]%lookup_take_Some. by rewrite lookup_drop in Hj.
Qed.

Lemma ScoreHistoryView_get_pages_witness :
  Game_objects Scenario.stC.1 !! Scenario.G = Some (Game.mk "game" true "highest")
  ∧ 1 ≤ 1
  ∧ ScoreHistoryView_get Scenario.stC.1 Scenario.U1 (Some Scenario.G) (Some 0) (Some 1)
    = ValueError.
Proof.
  assert (Game_objects Scenario.stC.1 !! Scenario.G
          = Some (Game.mk "game" true "highest")) as H1 by (vm_compute; reflexivity).
  assert (1 ≤ 1) as H2 by lia.
  assert (0 ≤ 0) as H3 by lia.
  split; [exact H1|]. split; [exact H2|].
  exact (proj1 (ScoreHistoryView_get_pages Scenario.stC.1 Scenario.U1 Scenario.G 1
                  _ H1 H2) 0 H3).
Defined.

End views.
